(** * RestEasy: the two window shells

    A shallow embedding of [src/resteasy/__main__.py] (Application Shell A,
    PyGObject / GTK) and of [src/resteasy/view/dashboard.py] (Window Shell B,
    PySide6 / Qt).

    Both files consist of toolkit calls only.  Each toolkit call is modelled
    as a computation in a state-and-exception monad over the part of the
    toolkit's state the call is documented to touch; the methods of the
    repository are then transcribed statement by statement. *)

From Stdlib Require Import String Ascii List ZArith Arith Bool Lia.
Import ListNotations.
Local Open Scope string_scope.

(* ===================================================================== *)
(** ** Python: outcomes of a statement, and the monad threading a world  *)
(* ===================================================================== *)

Module Py.

(** The exceptions the two files can meet. *)
Inductive exn : Type :=
| ImportError (msg : string)
| ValueError (msg : string)
| SystemExit (code : Z).

(** A statement returns, raises, or the interpreter is aborted by native
    code (Qt's [qFatal]); an abort is not an exception and cannot be caught. *)
Inductive outcome (A : Type) : Type :=
| Return (a : A)
| Raise (e : exn)
| Abort (msg : string).

Arguments Return {A} a.
Arguments Raise {A} e.
Arguments Abort {A} msg.

Definition M (W A : Type) : Type := W -> outcome A * W.

Definition ret {W A} (a : A) : M W A := fun w => (Return a, w).

Definition bind {W A B} (m : M W A) (k : A -> M W B) : M W B :=
  fun w =>
    match m w with
    | (Return a, w') => k a w'
    | (Raise e, w') => (Raise e, w')
    | (Abort s, w') => (Abort s, w')
    end.

Definition raise {W A} (e : exn) : M W A := fun w => (Raise e, w).
Definition abort {W A} (msg : string) : M W A := fun w => (Abort msg, w).
Definition get {W} : M W W := fun w => (Return w, w).
Definition modify {W} (f : W -> W) : M W unit := fun w => (Return tt, f w).

(** [returns o]: the statement ended without an exception and without an
    abort. *)
Definition returns {A} (o : outcome A) : bool :=
  match o with Return _ => true | _ => false end.

(** The exit code of the process when the main module ends with outcome
    [o].  CPython hands the integer carried by [SystemExit] to [exit], and
    the operating system keeps its low 8 bits: 256 is reported as 0 and -1
    as 255.  Any other uncaught exception gives [1], a module that runs to
    its end [0].  An abort ends the process with signal SIGABRT (reported
    as 134). *)
Definition process_exit_code {A} (o : outcome A) : Z :=
  match o with
  | Return _ => 0%Z
  | Raise (SystemExit c) => (c mod 256)%Z
  | Raise _ => 1%Z
  | Abort _ => 134%Z
  end.

(** [sys.exit(status)] *)
Definition sys_exit {W} (status : Z) : M W unit := raise (SystemExit status).

(** A Python dict with string keys, in insertion order. *)
Fixpoint dict_get {V} (k : string) (d : list (string * V)) : option V :=
  match d with
  | [] => None
  | (k', v) :: d' => if String.eqb k k' then Some v else dict_get k d'
  end.

Fixpoint dict_set {V} (k : string) (v : V) (d : list (string * V))
  : list (string * V) :=
  match d with
  | [] => [(k, v)]
  | (k', v') :: d' =>
      if String.eqb k k' then (k, v) :: d' else (k', v') :: dict_set k v d'
  end.

Definition str_in (s : string) (l : list string) : bool :=
  existsb (String.eqb s) l.


End Py.

Declare Scope py_scope.
Delimit Scope py_scope with py.
Notation "x <- m ;; k" := (Py.bind m (fun x => k))
  (at level 61, m at next level, right associativity) : py_scope.
Notation "m ;; k" := (Py.bind m (fun _ => k))
  (at level 61, right associativity) : py_scope.
Local Open Scope py_scope.

(* ===================================================================== *)
(** ** Shell A's toolkit: PyGObject ([gi]), GLib and Gtk                 *)
(* ===================================================================== *)

Module Gi.

(** What is installed on the machine: for each namespace, the versions for
    which a typelib exists, newest first.  [Repository.require] with no
    version loads the newest one. *)
Record Env : Type := { enumerate_versions : string -> list string }.

Inductive Warning : Type :=
| PyGIWarning (msg : string)
| GLibWarning (msg : string).

(** A window created by [Gtk.ApplicationWindow(...)]. *)
Record Window : Type := mkWindow {
  win_application : option nat;   (* the [application] property: its owner *)
  win_title : string;
  win_visible : bool
}.

(** The application object created by [Gtk.Application(...)]. *)
Record Application : Type := mkApplication {
  app_ref : nat;
  application_id : option string
}.

Record World : Type := mkWorld {
  loaded : list (string * string);       (* repository: namespace -> version *)
  versions : list (string * string);     (* the dict [gi._versions] *)
  warnings : list Warning;
  application_name : option string;      (* GLib's process-wide name *)
  applications : list Application;
  windows : list Window
}.

Definition fresh : World :=
  mkWorld [] [] [] None [] [].

Definition set_loaded (f : list (string * string) -> list (string * string))
  (w : World) : World :=
  mkWorld (f (loaded w)) (versions w) (warnings w) (application_name w)
          (applications w) (windows w).

Definition set_versions (f : list (string * string) -> list (string * string))
  (w : World) : World :=
  mkWorld (loaded w) (f (versions w)) (warnings w) (application_name w)
          (applications w) (windows w).

Definition warn (x : Warning) (w : World) : World :=
  mkWorld (loaded w) (versions w) (warnings w ++ [x]) (application_name w)
          (applications w) (windows w).

Definition set_application_name_field (n : option string) (w : World) : World :=
  mkWorld (loaded w) (versions w) (warnings w) n
          (applications w) (windows w).

Definition set_applications (f : list Application -> list Application)
  (w : World) : World :=
  mkWorld (loaded w) (versions w) (warnings w) (application_name w)
          (f (applications w)) (windows w).

Definition set_windows (f : list Window -> list Window) (w : World) : World :=
  mkWorld (loaded w) (versions w) (warnings w) (application_name w)
          (applications w) (f (windows w)).

Definition M := Py.M World.

Section Repository.

Variable env : Env.

(** [repository.is_registered(namespace)] *)
Definition is_registered (ns : string) (w : World) : bool :=
  match Py.dict_get ns (loaded w) with Some _ => true | None => false end.

(** [gi.get_required_version(namespace)] *)
Definition get_required_version (ns : string) (w : World) : option string :=
  Py.dict_get ns (versions w).

(** [repository.require(namespace, version)]: a namespace already loaded is
    kept (a different version asked for is an error); otherwise the version
    asked for is loaded, or the newest one when none is asked for. *)
Definition repository_require (ns : string) (version : option string) : M unit :=
  fun w =>
    match Py.dict_get ns (loaded w), version with
    | Some l, Some v =>
        if String.eqb l v then (Py.Return tt, w)
        else (Py.Raise (Py.ImportError
                ("Namespace " ++ ns ++ " is already loaded with version " ++ l)), w)
    | Some _, None => (Py.Return tt, w)
    | None, Some v =>
        if Py.str_in v (enumerate_versions env ns)
        then (Py.Return tt, set_loaded (Py.dict_set ns v) w)
        else (Py.Raise (Py.ImportError
                ("Typelib file for namespace " ++ ns ++ ", version " ++ v
                 ++ " not found")), w)
    | None, None =>
        match enumerate_versions env ns with
        | newest :: _ => (Py.Return tt, set_loaded (Py.dict_set ns newest) w)
        | [] => (Py.Raise (Py.ImportError
                   ("Typelib file for namespace " ++ ns ++ " not found")), w)
        end
    end.

(** The warning of [gi.importer._check_require_version], issued after the
    namespace has been loaded. *)
Definition check_require_version (ns : string) (was_loaded : bool) : M unit :=
  fun w =>
    if was_loaded then (Py.Return tt, w)
    else if Py.str_in ns ["GLib"; "GObject"; "Gio"] then (Py.Return tt, w)
    else
      match get_required_version ns w with
      | Some _ => (Py.Return tt, w)
      | None =>
          match Py.dict_get ns (loaded w) with
          | Some version =>
              (Py.Return tt,
               warn (PyGIWarning
                 (ns ++ " was imported without specifying a version first. "
                  ++ "Use gi.require_version('" ++ ns ++ "', '" ++ version
                  ++ "') before import to ensure that the right version gets loaded."))
                 w)
          | None => (Py.Return tt, w)
          end
      end.

(** [from gi.repository import <namespace>] *)
Definition import_from_repository (ns : string) : M unit :=
  w <- Py.get ;;
  let was_loaded := is_registered ns w in
  if was_loaded || negb (Nat.eqb (length (enumerate_versions env ns)) 0) then
    repository_require ns (get_required_version ns w) ;;
    check_require_version ns was_loaded
  else
    Py.raise (Py.ImportError
      ("cannot import name " ++ ns ++ ", introspection typelib not found")).

(** [gi.require_version(namespace, version)]: four checks in the order of
    PyGObject's function, then the entry in [gi._versions]. *)
Definition require_version (ns version : string) : M unit :=
  w <- Py.get ;;
  match Py.dict_get ns (loaded w) with
  | Some loaded_version =>
      if negb (String.eqb loaded_version version) then
        Py.raise (Py.ValueError
          ("Namespace " ++ ns ++ " is already loaded with version "
           ++ loaded_version))
      else Py.ret tt
  | None => Py.ret tt
  end ;;
  match Py.dict_get ns (versions w) with
  | Some r =>
      if negb (String.eqb r version) then
        Py.raise (Py.ValueError
          ("Namespace " ++ ns ++ " already requires version " ++ r))
      else Py.ret tt
  | None => Py.ret tt
  end ;;
  let available_versions := enumerate_versions env ns in
  match available_versions with
  | [] => Py.raise (Py.ValueError ("Namespace " ++ ns ++ " not available"))
  | _ :: _ => Py.ret tt
  end ;;
  (if negb (Py.str_in version available_versions) then
     Py.raise (Py.ValueError
       ("Namespace " ++ ns ++ " not available for version " ++ version))
   else Py.ret tt) ;;
  Py.modify (set_versions (Py.dict_set ns version)).

End Repository.

(** *** GLib and Gtk *)

Definition is_digit (c : ascii) : bool :=
  ((48 <=? nat_of_ascii c) && (nat_of_ascii c <=? 57))%nat.

Definition is_alpha (c : ascii) : bool :=
  (((65 <=? nat_of_ascii c) && (nat_of_ascii c <=? 90))
   || ((97 <=? nat_of_ascii c) && (nat_of_ascii c <=? 122)))%nat.

Definition is_element_char (c : ascii) : bool :=
  is_alpha c || is_digit c || Ascii.eqb c "_"%char || Ascii.eqb c "-"%char.

Fixpoint split_on (sep : ascii) (s : string) : list string :=
  match s with
  | EmptyString => [EmptyString]
  | String c s' =>
      if Ascii.eqb c sep then EmptyString :: split_on sep s'
      else match split_on sep s' with
           | h :: t => String c h :: t
           | [] => [String c EmptyString]
           end
  end.

Definition valid_element (e : string) : bool :=
  match e with
  | EmptyString => false
  | String c _ =>
      negb (is_digit c) && forallb is_element_char (list_ascii_of_string e)
  end.

(** [g_application_id_is_valid], after GLib's documentation: at most 255
    characters, at least two elements separated by periods, every element
    non-empty, made of letters, digits, underscore and hyphen, and not
    starting with a digit. *)
Definition g_application_id_is_valid (id : string) : bool :=
  (String.length id <=? 255)%nat
  && (2 <=? length (split_on "."%char id))%nat
  && forallb valid_element (split_on "."%char id).

(** [Gtk.Application(application_id=id)]: a new application object.  GLib
    refuses an invalid identifier with a critical warning and leaves the
    property unset. *)
Definition Gtk_Application (id : string) : M Application :=
  fun w =>
    let self :=
      mkApplication (length (applications w))
        (if g_application_id_is_valid id then Some id else None) in
    (Py.Return self, set_applications (fun l => (l ++ [self])%list) w).

(** [GLib.set_application_name(name)]: the name is process-wide and is set
    once; a later call only warns. *)
Definition GLib_set_application_name (name : string) : M unit :=
  fun w =>
    match application_name w with
    | None => (Py.Return tt, set_application_name_field (Some name) w)
    | Some _ =>
        (Py.Return tt,
         warn (GLibWarning "g_set_application_name() called multiple times") w)
    end.

(** [Gtk.ApplicationWindow(application=app, title=t)]: a new window, not yet
    shown, added to the windows of [app].  The result is the window's index
    in [windows]. *)
Definition Gtk_ApplicationWindow (app : Application) (t : string) : M nat :=
  fun w =>
    (Py.Return (length (windows w)),
     set_windows (fun l => (l ++ [mkWindow (Some (app_ref app)) t false])%list) w).

Fixpoint update_nth {A} (n : nat) (f : A -> A) (l : list A) : list A :=
  match l, n with
  | [], _ => []
  | x :: l', O => f x :: l'
  | x :: l', S n' => x :: update_nth n' f l'
  end.

(** [window.present()] *)
Definition present (window : nat) : M unit :=
  Py.modify (set_windows (update_nth window
    (fun x => mkWindow (win_application x) (win_title x) true))).

(** The windows on screen. *)
Definition shown_windows (w : World) : list Window :=
  filter win_visible (windows w).

(** No namespace is loaded but those of GLib itself, which [import gi]
    loads: the state in which a process runs the module as its script. *)
Definition only_glib_loaded (w : World) : Prop :=
  forall ns v,
    Py.dict_get ns (loaded w) = Some v ->
    Py.str_in ns ["GLib"; "GObject"; "Gio"] = true.

(** The references of the application objects are below their number; a
    new object takes the number as its reference. *)
Definition refs_in_range (w : World) : Prop :=
  Forall (fun a => app_ref a < length (applications w)) (applications w).


End Gi.

(* ===================================================================== *)
(** ** Application Shell A: [src/resteasy/__main__.py]                   *)
(* ===================================================================== *)

Module ShellA.

Import Gi.

Section Toolkit.

(** The machine's typelibs, and [Gtk.Application.run], which the class
    inherits from the toolkit: it drives the event loop and returns the
    exit status. *)
Variable env : Env.
Variable g_application_run : Application -> list string -> M Z.

(** [from gi.repository import GLib, Gtk] *)
Definition module_imports : M unit :=
  import_from_repository env "GLib" ;;
  import_from_repository env "Gtk".

(** The statements of the module before the class, in source order.
    [import sys] and [import gi] only bind the two names. *)
Definition module_toplevel : M unit :=
  module_imports ;;
  require_version env "Gtk" "4.0".

(** [MyApplication.__init__] *)
Definition MyApplication : M Application :=
  self <- Gtk_Application "com.resteasy.RestEasy" ;;
  GLib_set_application_name "RestEasy" ;;
  Py.ret self.

(** [MyApplication.do_activate] *)
Definition do_activate (self : Application) : M unit :=
  window <- Gtk_ApplicationWindow self "Hello, RestEasy!" ;;
  present window.

(** The body of [if __name__ == "__main__":], with [sys.argv] as [argv]. *)
Definition main (argv : list string) : M unit :=
  app <- MyApplication ;;
  exit_status <- g_application_run app argv ;;
  Py.sys_exit exit_status.

(** The whole script, as [python -m resteasy] runs it. *)
Definition script (argv : list string) : M unit :=
  module_toplevel ;;
  main argv.

(** [n] invocations of [activate()] on the application [self]. *)
Fixpoint activate_times (n : nat) (self : Application) : M unit :=
  match n with
  | O => Py.ret tt
  | S n' => activate_times n' self ;; do_activate self
  end.

(** A session of Shell A: the application object is created, then
    [activate()] is invoked [n] times. *)
Definition session (n : nat) : M Application :=
  self <- MyApplication ;;
  activate_times n self ;;
  Py.ret self.

End Toolkit.

(** Importing the module, then [MyApplication()]. *)
Definition instantiate (env : Env) : M Application :=
  module_toplevel env ;;
  MyApplication.

(** Example machines: GLib 2.0 and the given versions of Gtk, newest first. *)
Definition machine (gtk : list string) : Env :=
  {| enumerate_versions := fun ns =>
       if String.eqb ns "Gtk" then gtk
       else if String.eqb ns "GLib" then ["2.0"]
       else [] |}.

(** The module as PyGObject's documentation asks for it, the requirement
    before the import; used for comparison only. *)
Definition pinned_toplevel (env : Env) : M unit :=
  require_version env "Gtk" "4.0" ;;
  module_imports env.

(** "Exactly one window exists, owned by [self], titled [t]". *)
Definition one_window_titled (t : string) (self : Application) (w : World)
  : Prop :=
  exists win, windows w = [win]
              /\ win_application win = Some (app_ref self)
              /\ win_title win = t.

(** "At most one window is shown". *)
Definition at_most_one_shown (w : World) : Prop :=
  length (shown_windows w) <= 1.

End ShellA.

(* ===================================================================== *)
(** ** Shell B's toolkit: PySide6 ([QtWidgets])                          *)
(* ===================================================================== *)

Module Qt.

(** The signals of [QAbstractButton] that need no argument. *)
Inductive Signal : Type := pressed | released | clicked.

Definition Signal_eqb (a b : Signal) : bool :=
  match a, b with
  | pressed, pressed | released, released | clicked, clicked => true
  | _, _ => false
  end.

(** A slot: the bound method [widget.close]. *)
Inductive Slot : Type := close_of (widget : nat).

Inductive Class : Type := QMainWindow | QPushButton.

Record Widget : Type := mkWidget {
  class : Class;
  parent : option nat;
  windowTitle : string;
  text : string;                          (* the label of a button *)
  centralWidget : option nat;
  connections : list (Signal * Slot);
  shown : bool;       (* not hidden: Qt's [not isHidden()] *)
  explicit : bool     (* shown or hidden by a call of show(), hide(), close() *)
}.

(** Widgets are referred to by their index in [widgets].  [qapplication]
    tells whether the host has created its [QApplication]. *)
Record World : Type := mkWorld {
  qapplication : bool;
  widgets : list Widget
}.

Definition M := Py.M World.

Definition update_widget (i : nat) (f : Widget -> Widget) : M unit :=
  Py.modify (fun w => mkWorld (qapplication w) (Gi.update_nth i f (widgets w))).

(** Qt's [isVisible()]: the widget is not hidden and neither is any of its
    ancestors.  The chain of parents of a widget is shorter than the number
    of widgets, which is the fuel. *)
Fixpoint visible_from (fuel : nat) (ws : list Widget) (i : nat) : bool :=
  match nth_error ws i with
  | None => false
  | Some x =>
      shown x
      && match parent x with
         | None => true
         | Some p =>
             match fuel with
             | O => false
             | S fuel' => visible_from fuel' ws p
             end
         end
  end.

Definition visible (i : nat) (w : World) : bool :=
  visible_from (length (widgets w)) (widgets w) i.

(** The constructor of a widget without a parent: a window that is not
    shown yet.  Qt aborts the process when no [QApplication] exists. *)
Definition new_widget (c : Class) (label : string) : M nat :=
  fun w =>
    if qapplication w then
      (Py.Return (length (widgets w)),
       mkWorld true
         (widgets w ++ [mkWidget c None "" label None [] false false]))
    else
      Py.abort "QWidget: Must construct a QApplication before a QWidget" w.

(** [QMainWindow()] and [QPushButton(text)] *)
Definition QMainWindow_new : M nat := new_widget QMainWindow "".
Definition QPushButton_new (label : string) : M nat := new_widget QPushButton label.

(** [self.setWindowTitle(title)] *)
Definition setWindowTitle (self : nat) (title : string) : M unit :=
  update_widget self (fun x =>
    mkWidget (class x) (parent x) title (text x) (centralWidget x)
             (connections x) (shown x) (explicit x)).

(** [button.<signal>.connect(slot)]; the result is the connection, truthy. *)
Definition connect (button : nat) (sig : Signal) (slot : Slot) : M bool :=
  update_widget button (fun x =>
    mkWidget (class x) (parent x) (windowTitle x) (text x) (centralWidget x)
             (connections x ++ [(sig, slot)]) (shown x) (explicit x)) ;;
  Py.ret true.

(** [self.setCentralWidget(widget)]: the main window takes ownership of the
    widget, which becomes its child.  A widget that was hidden by an
    explicit call stays hidden.  Any other widget put into a window that is
    not visible yet is no longer hidden, and is visible as soon as the
    window is; put into a visible window it is hidden until Qt shows it in
    the next turn of the event loop. *)
Definition setCentralWidget (self widget : nat) : M unit :=
  w <- Py.get ;;
  let window_visible := visible self w in
  update_widget self (fun x =>
    mkWidget (class x) (parent x) (windowTitle x) (text x) (Some widget)
             (connections x) (shown x) (explicit x)) ;;
  update_widget widget (fun x =>
    let explicitly_hidden := negb (shown x) && explicit x in
    mkWidget (class x) (Some self) (windowTitle x) (text x) (centralWidget x)
             (connections x) (negb (window_visible || explicitly_hidden))
             explicitly_hidden).

(** The widget is shown, or hidden, by an explicit call. *)
Definition set_shown (b : bool) (x : Widget) : Widget :=
  mkWidget (class x) (parent x) (windowTitle x) (text x) (centralWidget x)
           (connections x) b true.

(** [self.show()]: the widget is no longer hidden; its children that are
    not hidden are visible with it. *)
Definition show (self : nat) : M unit := update_widget self (set_shown true).

(** [self.close()]: the close event is accepted by default and the widget is
    hidden, and its children are no longer visible; the result tells that
    the widget was closed. *)
Definition close (self : nat) : M bool :=
  update_widget self (set_shown false) ;;
  Py.ret true.

Definition call_slot (s : Slot) : M unit :=
  match s with
  | close_of widget => _ <- close widget ;; Py.ret tt
  end.

(** The slots connected to [sig] are called in the order of connection. *)
Fixpoint call_slots (sig : Signal) (l : list (Signal * Slot)) : M unit :=
  match l with
  | [] => Py.ret tt
  | (s, slot) :: l' =>
      (if Signal_eqb s sig then call_slot slot else Py.ret tt) ;;
      call_slots sig l'
  end.

(** The button emits [sig]. *)
Definition emit (button : nat) (sig : Signal) : M unit :=
  w <- Py.get ;;
  match nth_error (widgets w) button with
  | Some b => call_slots sig (connections b)
  | None => Py.ret tt
  end.

(** [button.click()]: a full activation of the button, which emits
    [pressed], [released] and [clicked] in this order. *)
Definition click (button : nat) : M unit :=
  emit button pressed ;; emit button released ;; emit button clicked.

(** A widget without a parent is a window. *)
Definition is_window (x : Widget) : bool :=
  match parent x with None => true | Some _ => false end.

Definition windows (w : World) : list Widget := filter is_window (widgets w).

Definition shown_windows (w : World) : list Widget :=
  filter (fun x => is_window x && shown x) (widgets w).

Definition is_child_of (p : nat) (x : Widget) : bool :=
  match parent x with Some q => Nat.eqb q p | None => false end.

(** The widgets a window contains. *)
Definition children (p : nat) (w : World) : list Widget :=
  filter (is_child_of p) (widgets w).

(** The widget [self] is shown, or is closed: for a window, it is on screen
    or not. *)
Definition is_shown (self : nat) (w : World) : Prop :=
  exists x, nth_error (widgets w) self = Some x /\ shown x = true.

Definition is_closed (self : nat) (w : World) : Prop :=
  exists x, nth_error (widgets w) self = Some x /\ shown x = false.

(** Parents refer to existing widgets. *)
Definition well_formed (w : World) : Prop :=
  forall x, In x (widgets w) ->
    forall p, parent x = Some p -> p < length (widgets w).

End Qt.

(* ===================================================================== *)
(** ** Window Shell B: [src/resteasy/view/dashboard.py]                  *)
(* ===================================================================== *)

Module ShellB.

Import Qt.

(** [Dashboard.__init__]; the result is the new window [self]. *)
Definition Dashboard : M nat :=
  self <- QMainWindow_new ;;
  setWindowTitle self "RestEasy" ;;
  button <- QPushButton_new "RestEasy (WIP)" ;;
  _ <- connect button pressed (close_of self) ;;
  setCentralWidget self button ;;
  show self ;;
  Py.ret self.

(** The button of a dashboard: its central widget. *)
Definition button_of (self : nat) (w : World) : option nat :=
  match nth_error (widgets w) self with
  | Some x => centralWidget x
  | None => None
  end.

(** The signals the button emits during a session, one after the other. *)
Fixpoint emit_all (button : nat) (sigs : list Signal) : M unit :=
  match sigs with
  | [] => Py.ret tt
  | s :: sigs' => emit button s ;; emit_all button sigs'
  end.

(** A session of Shell B: the single construction, then the signals the
    button emits. *)
Definition session (sigs : list Signal) : M nat :=
  self <- Dashboard ;;
  w <- Py.get ;;
  match button_of self w with
  | Some button => emit_all button sigs
  | None => Py.ret tt
  end ;;
  Py.ret self.

(** [k] constructions of a Dashboard, one after the other, by a caller
    that keeps every instance, as [[Dashboard() for _ in range(k)]] does;
    the result is the list of the instances. *)
Fixpoint construct_times (k : nat) : M (list nat) :=
  match k with
  | O => Py.ret []
  | S k' =>
      selves <- construct_times k' ;;
      self <- Dashboard ;;
      Py.ret (selves ++ [self])%list
  end.

(** The host program just after it has created its [QApplication]. *)
Definition host : World := mkWorld true [].

(** The two widgets a construction adds when [n] widgets exist already:
    the window, shown or not, and its button. *)
Definition dashboard_window (n : nat) (visible : bool) : Widget :=
  mkWidget QMainWindow None "RestEasy" "" (Some (S n)) [] visible true.

Definition dashboard_button (n : nat) : Widget :=
  mkWidget QPushButton (Some n) "" "RestEasy (WIP)" None
           [(pressed, close_of n)] true false.

(** The world after a construction in a world that has the widgets [l]. *)
Definition built (l : list Widget) (visible : bool) : World :=
  mkWorld true
    (l ++ [dashboard_window (length l) visible; dashboard_button (length l)]).

End ShellB.

(* ===================================================================== *)
(** ** Properties of Application Shell A                                 *)
(* ===================================================================== *)

Module ShellA_Properties.

Import Gi ShellA.

Ltac run_monad :=
  unfold Py.bind, Py.ret, Py.get, Py.modify, Py.raise, Py.sys_exit;
  cbn [fst snd].

(** *** Dictionaries *)

Lemma dict_get_set_same {V} (k : string) (v : V) d :
  Py.dict_get k (Py.dict_set k v d) = Some v.
Proof.
  induction d as [|[k' v'] d IH]; cbn.
  - now rewrite String.eqb_refl.
  - destruct (String.eqb k k') eqn:E; cbn.
    + now rewrite String.eqb_refl.
    + now rewrite E.
Qed.

Lemma dict_get_set_other {V} (k k' : string) (v : V) d :
  k <> k' -> Py.dict_get k' (Py.dict_set k v d) = Py.dict_get k' d.
Proof.
  intros Hne. induction d as [|[k0 v0] d IH]; cbn.
  - destruct (String.eqb_spec k' k); congruence.
  - destruct (String.eqb_spec k k0) as [->|Hk]; cbn.
    + destruct (String.eqb_spec k' k0); congruence.
    + destruct (String.eqb_spec k' k0); congruence.
Qed.

(** *** The repository *)

Lemma repository_require_versions env ns v w :
  versions (snd (repository_require env ns v w)) = versions w.
Proof.
  unfold repository_require.
  destruct (Py.dict_get ns (loaded w)), v; cbn;
    repeat match goal with
           | |- context [if ?b then _ else _] => destruct b
           | |- context [match enumerate_versions env ns with _ => _ end] =>
               destruct (enumerate_versions env ns)
           end; reflexivity.
Qed.

Lemma check_require_version_keeps ns b w :
  versions (snd (check_require_version ns b w)) = versions w
  /\ loaded (snd (check_require_version ns b w)) = loaded w.
Proof.
  unfold check_require_version.
  destruct b; [now split|].
  destruct (Py.str_in ns _); [now split|].
  destruct (get_required_version ns w); [now split|].
  destruct (Py.dict_get ns (loaded w)); now split.
Qed.

Lemma import_keeps_versions env ns w :
  versions (snd (import_from_repository env ns w)) = versions w.
Proof.
  unfold import_from_repository. run_monad.
  destruct (_ || _); [|reflexivity].
  pose proof (repository_require_versions env ns (get_required_version ns w) w) as H.
  destruct (repository_require env ns (get_required_version ns w) w) as [[[]|e|s] w1];
    cbn in *; try assumption.
  destruct (check_require_version_keeps ns (is_registered ns w) w1) as [H1 _].
  congruence.
Qed.

Lemma repository_require_other env ns ns' v w :
  ns <> ns' ->
  Py.dict_get ns' (loaded (snd (repository_require env ns v w)))
  = Py.dict_get ns' (loaded w).
Proof.
  intros Hne. unfold repository_require.
  destruct (Py.dict_get ns (loaded w)), v; cbn;
    repeat match goal with
           | |- context [if ?b then _ else _] => destruct b
           | |- context [match enumerate_versions env ns with _ => _ end] =>
               destruct (enumerate_versions env ns)
           end; cbn; try reflexivity; now apply dict_get_set_other.
Qed.

Lemma import_keeps_other env ns ns' w :
  ns <> ns' ->
  Py.dict_get ns' (loaded (snd (import_from_repository env ns w)))
  = Py.dict_get ns' (loaded w).
Proof.
  intros Hne. unfold import_from_repository. run_monad.
  destruct (_ || _); [|reflexivity].
  pose proof (repository_require_other env ns ns' (get_required_version ns w) w Hne) as H.
  destruct (repository_require env ns (get_required_version ns w) w) as [[[]|e|s] w1];
    cbn in *; try assumption.
  destruct (check_require_version_keeps ns (is_registered ns w) w1) as [_ H1].
  congruence.
Qed.

(** Importing a namespace that is neither loaded nor required loads the
    newest version installed, and warns. *)
Lemma import_unpinned env ns w :
  get_required_version ns w = None ->
  Py.dict_get ns (loaded w) = None ->
  Py.str_in ns ["GLib"; "GObject"; "Gio"] = false ->
  import_from_repository env ns w =
  match enumerate_versions env ns with
  | [] => (Py.Raise (Py.ImportError
             ("cannot import name " ++ ns ++ ", introspection typelib not found")), w)
  | newest :: _ =>
      (Py.Return tt,
       warn (PyGIWarning
         (ns ++ " was imported without specifying a version first. "
          ++ "Use gi.require_version('" ++ ns ++ "', '" ++ newest
          ++ "') before import to ensure that the right version gets loaded."))
         (set_loaded (Py.dict_set ns newest) w))
  end.
Proof.
  intros Hreq Hload Hglib.
  unfold import_from_repository, is_registered. run_monad.
  rewrite Hload, Hreq. cbn [orb].
  destruct (enumerate_versions env ns) as [|newest rest] eqn:E; cbn.
  - reflexivity.
  - unfold repository_require. rewrite Hload, E.
    unfold check_require_version. cbn in Hglib |- *. rewrite Hglib.
    unfold get_required_version in *. cbn [versions set_loaded loaded].
    rewrite Hreq, dict_get_set_same. reflexivity.
Qed.

Lemma require_version_keeps_loaded env ns v w :
  loaded (snd (require_version env ns v w)) = loaded w.
Proof.
  unfold require_version. run_monad.
  destruct (Py.dict_get ns (loaded w)) as [l|];
    [destruct (negb (String.eqb l v)); [reflexivity|]|];
    (destruct (Py.dict_get ns (versions w)) as [r|];
     [destruct (negb (String.eqb r v)); [reflexivity|]|]);
    (destruct (enumerate_versions env ns); [reflexivity|]);
    destruct (negb (Py.str_in v _)); reflexivity.
Qed.

(** *** The module's imports *)

Lemma only_glib_loaded_no_Gtk w :
  only_glib_loaded w -> Py.dict_get "Gtk" (loaded w) = None.
Proof.
  intros H. destruct (Py.dict_get "Gtk" (loaded w)) as [v|] eqn:E;
    [|reflexivity].
  apply H in E. discriminate.
Qed.

Lemma only_glib_loaded_fresh : only_glib_loaded fresh.
Proof. intros ns v H. discriminate. Qed.

Lemma import_GLib env w :
  is_registered "GLib" w = true \/ enumerate_versions env "GLib" <> [] ->
  get_required_version "GLib" w = None ->
  exists w1, import_from_repository env "GLib" w = (Py.Return tt, w1)
             /\ versions w1 = versions w
             /\ Py.dict_get "Gtk" (loaded w1) = Py.dict_get "Gtk" (loaded w).
Proof.
  intros Havail Hreq.
  pose proof (import_keeps_versions env "GLib" w) as Hv.
  pose proof (import_keeps_other env "GLib" "Gtk" w ltac:(discriminate)) as Hl.
  assert (fst (import_from_repository env "GLib" w) = Py.Return tt) as Hr.
  { clear Hv Hl. unfold import_from_repository, is_registered in *. run_monad.
    unfold repository_require, check_require_version. rewrite Hreq.
    destruct (Py.dict_get "GLib" (loaded w)) as [l|] eqn:El; cbn.
    - now rewrite El.
    - destruct Havail as [Habs|Havail]; [discriminate|].
      destruct (enumerate_versions env "GLib"); [congruence|].
      cbn. now rewrite El. }
  destruct (import_from_repository env "GLib" w) as [o w1]; cbn in *.
  subst o. now exists w1.
Qed.

(** The imports of the module, on a machine where GLib can be imported and
    where Gtk is neither loaded nor required yet. *)
Lemma module_imports_unpinned env w :
  versions w = [] ->
  Py.dict_get "Gtk" (loaded w) = None ->
  is_registered "GLib" w = true \/ enumerate_versions env "GLib" <> [] ->
  exists w1,
    import_from_repository env "GLib" w = (Py.Return tt, w1)
    /\ versions w1 = []
    /\ Py.dict_get "Gtk" (loaded w1) = None
    /\ module_imports env w = import_from_repository env "Gtk" w1.
Proof.
  intros Hv Hg Hglib.
  destruct (import_GLib env w Hglib) as (w1 & E & Hv1 & Hg1).
  { unfold get_required_version. now rewrite Hv. }
  exists w1. repeat split; try congruence.
  unfold module_imports. run_monad. now rewrite E.
Qed.

(** *** What an import leaves alone *)

Lemma repository_require_frame env ns v w :
  applications (snd (repository_require env ns v w)) = applications w
  /\ windows (snd (repository_require env ns v w)) = windows w
  /\ application_name (snd (repository_require env ns v w)) = application_name w.
Proof.
  unfold repository_require.
  destruct (Py.dict_get ns (loaded w)), v; cbn;
    repeat match goal with
           | |- context [if ?b then _ else _] => destruct b
           | |- context [match enumerate_versions env ns with _ => _ end] =>
               destruct (enumerate_versions env ns)
           end; cbn; repeat split.
Qed.

Lemma check_require_version_frame ns b w :
  applications (snd (check_require_version ns b w)) = applications w
  /\ windows (snd (check_require_version ns b w)) = windows w
  /\ application_name (snd (check_require_version ns b w)) = application_name w.
Proof.
  unfold check_require_version.
  destruct b; [repeat split|].
  destruct (Py.str_in ns _); [repeat split|].
  destruct (get_required_version ns w); [repeat split|].
  destruct (Py.dict_get ns (loaded w)); repeat split.
Qed.

Lemma import_frame env ns w :
  applications (snd (import_from_repository env ns w)) = applications w
  /\ windows (snd (import_from_repository env ns w)) = windows w
  /\ application_name (snd (import_from_repository env ns w)) = application_name w.
Proof.
  unfold import_from_repository. run_monad.
  destruct (_ || _); [|repeat split].
  pose proof (repository_require_frame env ns (get_required_version ns w) w) as H.
  destruct (repository_require env ns (get_required_version ns w) w) as [[[]|e|s] w1];
    cbn in *; try assumption.
  destruct (check_require_version_frame ns (is_registered ns w) w1) as (H1 & H2 & H3).
  destruct H as (H4 & H5 & H6). repeat split; congruence.
Qed.

(** The outcome of the module's statements, case by case on the Gtk
    versions installed. *)
Lemma module_toplevel_outcome env w :
  versions w = [] ->
  Py.dict_get "Gtk" (loaded w) = None ->
  is_registered "GLib" w = true \/ enumerate_versions env "GLib" <> [] ->
  exists w',
    applications w' = applications w
    /\ windows w' = windows w
    /\ application_name w' = application_name w
    /\ module_toplevel env w =
       match enumerate_versions env "Gtk" with
       | [] =>
           (Py.Raise (Py.ImportError
              "cannot import name Gtk, introspection typelib not found"), w')
       | newest :: _ =>
           if String.eqb newest "4.0"
           then (Py.Return tt, w')
           else (Py.Raise (Py.ValueError
                   ("Namespace Gtk is already loaded with version " ++ newest)), w')
       end.
Proof.
  intros Hv Hg Hglib.
  destruct (module_imports_unpinned env w Hv Hg Hglib) as (w1 & Eg & Hv1 & Hg1 & E).
  destruct (import_frame env "GLib" w) as (Fa & Fw & Fn).
  rewrite Eg in Fa, Fw, Fn. cbn [snd] in Fa, Fw, Fn.
  unfold module_toplevel. run_monad. rewrite E.
  rewrite import_unpinned;
    [| unfold get_required_version; now rewrite Hv1 | assumption | reflexivity].
  destruct (enumerate_versions env "Gtk") as [|newest rest] eqn:Egtk.
  - exists w1. repeat split; assumption.
  - unfold require_version. run_monad.
    cbn [loaded warn set_loaded versions]. rewrite dict_get_set_same, Hv1, Egtk.
    destruct (String.eqb_spec newest "4.0") as [->|Hne]; cbn.
    + eexists. split; [|split; [|split; [|reflexivity]]]; cbn; assumption.
    + eexists. split; [|split; [|split; [|reflexivity]]]; cbn; assumption.
Qed.

(** *** The application object and its window *)

Lemma MyApplication_returns w :
  exists self w',
    MyApplication w = (Py.Return self, w')
    /\ application_id self = Some "com.resteasy.RestEasy"
    /\ windows w' = windows w.
Proof.
  unfold MyApplication, Gtk_Application, GLib_set_application_name. run_monad.
  cbn. destruct (application_name w); eexists; eexists; repeat split.
Qed.

Lemma do_activate_spec self w :
  do_activate self w =
  (Py.Return tt,
   set_windows (fun l =>
     l ++ [mkWindow (Some (app_ref self)) "Hello, RestEasy!" true])%list w).
Proof.
  unfold do_activate, Gtk_ApplicationWindow, present. run_monad.
  unfold set_windows. cbn. f_equal. f_equal.
  induction (windows w) as [|x l IH]; cbn; [reflexivity|]. now rewrite IH.
Qed.

Lemma activate_times_spec n self w :
  exists w',
    activate_times n self w = (Py.Return tt, w')
    /\ windows w' =
       (windows w
        ++ repeat (mkWindow (Some (app_ref self)) "Hello, RestEasy!" true) n)%list.
Proof.
  induction n as [|n (w1 & E & Hw)]; cbn [activate_times].
  - exists w. split; [reflexivity|]. cbn. now rewrite app_nil_r.
  - run_monad. rewrite E, do_activate_spec.
    eexists. split; [reflexivity|]. cbn. rewrite Hw, <- app_assoc.
    f_equal. clear. induction n; cbn; [reflexivity|]. now f_equal.
Qed.

Lemma shown_repeat x n :
  win_visible x = true -> filter win_visible (repeat x n) = repeat x n.
Proof.
  intros Hx. induction n; cbn; [reflexivity|]. now rewrite Hx, IHn.
Qed.

(** *** The statements about Shell A *)

(** C1 (amended).  When [activate()] runs on an application that has no
    window yet, it returns without an exception and afterwards exactly one
    window exists; the window is owned by the application object, it is
    shown, and its title is the literal string "Hello, RestEasy!". *)
Theorem activate_creates_one_window (self : Application) (w : World) :
  windows w = [] ->
  exists w',
    do_activate self w = (Py.Return tt, w')
    /\ one_window_titled "Hello, RestEasy!" self w'
    /\ shown_windows w' = windows w'.
Proof.
  intros Hw. rewrite do_activate_spec. eexists. split; [reflexivity|].
  unfold one_window_titled, shown_windows, set_windows. cbn. rewrite Hw. cbn.
  split; [|reflexivity]. eexists. repeat split.
Qed.

Lemma activate_creates_one_window_witness :
  windows fresh = []
  /\ exists w',
       do_activate (mkApplication 0 (Some "com.resteasy.RestEasy")) fresh
       = (Py.Return tt, w')
       /\ one_window_titled "Hello, RestEasy!"
            (mkApplication 0 (Some "com.resteasy.RestEasy")) w'
       /\ shown_windows w' = windows w'.
Proof.
  split; [reflexivity|].
  apply (activate_creates_one_window
           (mkApplication 0 (Some "com.resteasy.RestEasy")) fresh).
  reflexivity.
Defined.

(** C1, as the specification words it, fails: after the application object
    has been created and [activate()] has run once, the only window is not
    titled "RestEasy". *)
Lemma activate_title_is_not_RestEasy :
  exists self w,
    session 1 fresh = (Py.Return self, w)
    /\ ~ one_window_titled "RestEasy" self w.
Proof.
  eexists. eexists. split; [reflexivity|].
  intros (win & Hw & _ & Ht). cbn in Hw. injection Hw as <-.
  cbn in Ht. discriminate.
Qed.

(** C5 (amended).  On a machine where GLib can be imported and where the
    newest Gtk installed is 4.0, in an interpreter in which
    [gi.require_version] has not been called for any namespace and no
    namespace is loaded but GLib's own, importing the module and
    instantiating [MyApplication()] returns without an exception. *)
Theorem instantiate_returns (env : Env) (w : World) :
  versions w = [] ->
  only_glib_loaded w ->
  is_registered "GLib" w = true \/ enumerate_versions env "GLib" <> [] ->
  hd_error (enumerate_versions env "Gtk") = Some "4.0" ->
  Py.returns (fst (instantiate env w)) = true.
Proof.
  intros Hv Hglibonly Hglib Hnewest.
  pose proof (only_glib_loaded_no_Gtk w Hglibonly) as Hg.
  destruct (module_imports_unpinned env w Hv Hg Hglib) as (w1 & _ & Hv1 & Hg1 & E).
  unfold instantiate, module_toplevel. run_monad. rewrite E.
  rewrite import_unpinned;
    [| unfold get_required_version; now rewrite Hv1 | assumption | reflexivity].
  destruct (enumerate_versions env "Gtk") as [|newest rest] eqn:Eg;
    [discriminate|].
  cbn in Hnewest. injection Hnewest as ->.
  unfold require_version. run_monad.
  cbn [loaded warn set_loaded versions]. rewrite dict_get_set_same, Hv1, Eg.
  cbn.
  destruct (MyApplication_returns
    (set_versions (Py.dict_set "Gtk" "4.0")
       (warn (PyGIWarning
          "Gtk was imported without specifying a version first. Use gi.require_version('Gtk', '4.0') before import to ensure that the right version gets loaded.")
          (set_loaded (Py.dict_set "Gtk" "4.0") w1)))) as (self & w' & Em & _).
  cbn in Em. rewrite Em. reflexivity.
Qed.

Lemma instantiate_returns_witness :
  versions fresh = []
  /\ only_glib_loaded fresh
  /\ (is_registered "GLib" fresh = true
      \/ enumerate_versions (machine ["4.0"; "3.0"]) "GLib" <> [])
  /\ hd_error (enumerate_versions (machine ["4.0"; "3.0"]) "Gtk") = Some "4.0"
  /\ Py.returns (fst (instantiate (machine ["4.0"; "3.0"]) fresh)) = true.
Proof.
  assert (is_registered "GLib" fresh = true
          \/ enumerate_versions (machine ["4.0"; "3.0"]) "GLib" <> []) as Hglib
    by (right; discriminate).
  split; [reflexivity|]. split; [exact only_glib_loaded_fresh|].
  split; [exact Hglib|].
  split; [reflexivity|].
  apply (instantiate_returns (machine ["4.0"; "3.0"]) fresh
           eq_refl only_glib_loaded_fresh Hglib eq_refl).
Defined.

(** C5, as the specification words it, fails: on a machine whose only Gtk
    is 3.0, the module raises [ValueError] before the class is reached. *)
Lemma instantiate_raises_with_gtk3_only :
  fst (instantiate (machine ["3.0"]) fresh)
  = Py.Raise (Py.ValueError "Namespace Gtk is already loaded with version 3.0")
  /\ Py.returns (fst (instantiate (machine ["3.0"]) fresh)) = false.
Proof. split; reflexivity. Qed.

(** C6.  The application identifier declared by the application object is
    the literal string "com.resteasy.RestEasy": the toolkit accepts it as a
    valid identifier and the new object carries it, whatever the state in
    which [MyApplication()] is called. *)
Theorem application_id_is_com_resteasy (w : World) :
  g_application_id_is_valid "com.resteasy.RestEasy" = true
  /\ exists self w',
       MyApplication w = (Py.Return self, w')
       /\ application_id self = Some "com.resteasy.RestEasy"
       /\ In self (applications w').
Proof.
  split; [reflexivity|].
  unfold MyApplication, Gtk_Application, GLib_set_application_name. run_monad.
  cbn. destruct (application_name w); eexists; eexists;
    (split; [reflexivity|]); (split; [reflexivity|]);
    cbn; apply in_or_app; right; now left.
Qed.




(** The same for the whole script, when the statements of the module
    return. *)
Lemma script_exits_with_low_byte_of_run_status
  (env : Env) (run : Application -> list string -> M Z) (argv : list string)
  (w w0 w1 w2 : World) (app : Application) (status : Z) :
  module_toplevel env w = (Py.Return tt, w0) ->
  MyApplication w0 = (Py.Return app, w1) ->
  run app argv w1 = (Py.Return status, w2) ->
  Py.process_exit_code (fst (script env run argv w)) = (status mod 256)%Z.
Proof.
  intros Htop Happ Hrun. unfold script, main. run_monad.
  now rewrite Htop, Happ, Hrun.
Qed.

(** C10 (amended).  In the module, [gi.require_version("Gtk", "4.0")] runs
    after the import.  On a machine where GLib and Gtk can be imported, in
    an interpreter in which [gi.require_version] has not been called and no
    namespace is loaded but GLib's own, the import returns; when it has run, no version of Gtk is
    required yet; it has loaded the newest Gtk installed, whatever it is,
    with the warning of an import without a required version; and the later
    [require_version], for 4.0 or for any other version, leaves the loaded
    version as the import chose it.  The late call still checks: importing
    the module returns, and records the requirement, when the loaded version
    is 4.0, and raises [ValueError] when it is any other version. *)
Theorem require_version_follows_import (env : Env) (w : World) :
  versions w = [] ->
  only_glib_loaded w ->
  is_registered "GLib" w = true \/ enumerate_versions env "GLib" <> [] ->
  enumerate_versions env "Gtk" <> [] ->
  exists w1 newest,
    module_imports env w = (Py.Return tt, w1)
    /\ module_toplevel env w = require_version env "Gtk" "4.0" w1
    /\ get_required_version "Gtk" w1 = None
    /\ hd_error (enumerate_versions env "Gtk") = Some newest
    /\ Py.dict_get "Gtk" (loaded w1) = Some newest
    /\ In (PyGIWarning
            ("Gtk was imported without specifying a version first. "
             ++ "Use gi.require_version('Gtk', '" ++ newest
             ++ "') before import to ensure that the right version gets loaded."))
         (warnings w1)
    /\ loaded (snd (module_toplevel env w)) = loaded w1
    /\ (forall v,
          loaded (snd ((module_imports env ;; require_version env "Gtk" v) w))
          = loaded w1)
    /\ fst (module_toplevel env w)
       = (if String.eqb newest "4.0" then Py.Return tt
          else Py.Raise (Py.ValueError
                 ("Namespace Gtk is already loaded with version " ++ newest)))
    /\ versions (snd (module_toplevel env w))
       = (if String.eqb newest "4.0" then [("Gtk", "4.0")] else [])
    /\ warnings (snd (module_toplevel env w)) = warnings w1.
Proof.
  intros Hv Hglibonly Hglib Hgtk.
  pose proof (only_glib_loaded_no_Gtk w Hglibonly) as Hg.
  destruct (module_imports_unpinned env w Hv Hg Hglib) as (w0 & _ & Hv0 & Hg0 & E).
  rewrite import_unpinned in E;
    [| unfold get_required_version; now rewrite Hv0 | assumption | reflexivity].
  destruct (enumerate_versions env "Gtk") as [|newest rest] eqn:Egtk;
    [congruence|].
  eexists. exists newest. split; [exact E|].
  assert (forall v, (module_imports env ;; require_version env "Gtk" v) w
                    = require_version env "Gtk" v
                        (warn (PyGIWarning
                           ("Gtk was imported without specifying a version first. "
                            ++ "Use gi.require_version('Gtk', '" ++ newest
                            ++ "') before import to ensure that the right version gets loaded."))
                           (set_loaded (Py.dict_set "Gtk" newest) w0))) as Hseq.
  { intros v. run_monad. now rewrite E. }
  split; [exact (Hseq "4.0")|].
  split; [unfold get_required_version; cbn; now rewrite Hv0|].
  split; [reflexivity|].
  split; [cbn; apply dict_get_set_same|].
  split; [cbn; apply in_or_app; right; now left|].
  split.
  { change (module_toplevel env w)
      with ((module_imports env ;; require_version env "Gtk" "4.0") w).
    rewrite Hseq. apply require_version_keeps_loaded. }
  split.
  { intros v. rewrite Hseq. apply require_version_keeps_loaded. }
  change (module_toplevel env w)
    with ((module_imports env ;; require_version env "Gtk" "4.0") w).
  rewrite Hseq. unfold require_version. run_monad.
  cbn [loaded warn set_loaded versions]. rewrite dict_get_set_same, Hv0, Egtk.
  destruct (String.eqb_spec newest "4.0") as [->|Hne]; cbn;
    rewrite ?Hv0; repeat split.
Qed.

Lemma require_version_follows_import_witness :
  versions fresh = []
  /\ only_glib_loaded fresh
  /\ (is_registered "GLib" fresh = true
      \/ enumerate_versions (machine ["5.0"; "4.0"]) "GLib" <> [])
  /\ enumerate_versions (machine ["5.0"; "4.0"]) "Gtk" <> []
  /\ exists w1 newest,
       module_imports (machine ["5.0"; "4.0"]) fresh = (Py.Return tt, w1)
       /\ module_toplevel (machine ["5.0"; "4.0"]) fresh
          = require_version (machine ["5.0"; "4.0"]) "Gtk" "4.0" w1
       /\ get_required_version "Gtk" w1 = None
       /\ hd_error (enumerate_versions (machine ["5.0"; "4.0"]) "Gtk")
          = Some newest
       /\ Py.dict_get "Gtk" (loaded w1) = Some newest
       /\ In (PyGIWarning
               ("Gtk was imported without specifying a version first. "
                ++ "Use gi.require_version('Gtk', '" ++ newest
                ++ "') before import to ensure that the right version gets loaded."))
            (warnings w1)
       /\ loaded (snd (module_toplevel (machine ["5.0"; "4.0"]) fresh))
          = loaded w1
       /\ (forall v,
             loaded (snd ((module_imports (machine ["5.0"; "4.0"]) ;;
                           require_version (machine ["5.0"; "4.0"]) "Gtk" v)
                            fresh))
             = loaded w1)
       /\ fst (module_toplevel (machine ["5.0"; "4.0"]) fresh)
          = (if String.eqb newest "4.0" then Py.Return tt
             else Py.Raise (Py.ValueError
                    ("Namespace Gtk is already loaded with version " ++ newest)))
       /\ versions (snd (module_toplevel (machine ["5.0"; "4.0"]) fresh))
          = (if String.eqb newest "4.0" then [("Gtk", "4.0")] else [])
       /\ warnings (snd (module_toplevel (machine ["5.0"; "4.0"]) fresh))
          = warnings w1.
Proof.
  assert (is_registered "GLib" fresh = true
          \/ enumerate_versions (machine ["5.0"; "4.0"]) "GLib" <> []) as Hglib
    by (right; discriminate).
  assert (enumerate_versions (machine ["5.0"; "4.0"]) "Gtk" <> []) as Hgtk
    by discriminate.
  split; [reflexivity|]. split; [exact only_glib_loaded_fresh|].
  split; [exact Hglib|].
  split; [exact Hgtk|].
  apply (require_version_follows_import (machine ["5.0"; "4.0"]) fresh
           eq_refl only_glib_loaded_fresh Hglib Hgtk).
Defined.

(** C10, as it is worded, fails in its last clause: importing the module
    does not behave as an import of Gtk without a requirement.  On a machine
    whose only Gtk is 3.0 the import returns and the module raises; on a
    machine with Gtk 4.0 the module records a requirement that the import
    alone does not. *)
Lemma module_import_is_not_an_unpinned_import :
  fst (module_imports (machine ["3.0"]) fresh) = Py.Return tt
  /\ fst (module_toplevel (machine ["3.0"]) fresh)
     = Py.Raise (Py.ValueError "Namespace Gtk is already loaded with version 3.0")
  /\ versions (snd (module_imports (machine ["4.0"]) fresh)) = []
  /\ versions (snd (module_toplevel (machine ["4.0"]) fresh)) = [("Gtk", "4.0")].
Proof. repeat split. Qed.

(** The requirement placed before the import does decide the version: on a
    machine with Gtk 5.0 and 4.0 the module loads 5.0 and then raises, the
    module with the two statements exchanged loads 4.0. *)
Example module_and_pinned_module_differ :
  Py.dict_get "Gtk" (loaded (snd (module_toplevel (machine ["5.0"; "4.0"]) fresh)))
  = Some "5.0"
  /\ fst (module_toplevel (machine ["5.0"; "4.0"]) fresh)
     = Py.Raise (Py.ValueError "Namespace Gtk is already loaded with version 5.0")
  /\ Py.dict_get "Gtk" (loaded (snd (pinned_toplevel (machine ["5.0"; "4.0"]) fresh)))
     = Some "4.0"
  /\ fst (pinned_toplevel (machine ["5.0"; "4.0"]) fresh) = Py.Return tt.
Proof. repeat split. Qed.

End ShellA_Properties.

(* ===================================================================== *)
(** ** Properties of Window Shell B                                      *)
(* ===================================================================== *)

Module ShellB_Properties.

Import Qt ShellB.
Local Open Scope list_scope.

Ltac run_monad :=
  unfold Py.bind, Py.ret, Py.get, Py.modify, Py.raise, Py.abort;
  cbn [fst snd].

(** *** Updating the widget at an index *)

Lemma update_nth_app {A} (f : A -> A) (l r : list A) (k : nat) :
  Gi.update_nth (length l + k) f (l ++ r) = l ++ Gi.update_nth k f r.
Proof.
  induction l as [|x l IH]; cbn; [reflexivity|]. now rewrite IH.
Qed.

Lemma update_nth_first_new {A} (f : A -> A) (l r : list A) (x : A) :
  Gi.update_nth (length l) f (l ++ x :: r) = l ++ f x :: r.
Proof.
  rewrite <- (Nat.add_0_r (length l)) at 1. now rewrite update_nth_app.
Qed.

Lemma update_nth_second_new {A} (f : A -> A) (l r : list A) (x y : A) :
  Gi.update_nth (S (length l)) f (l ++ x :: y :: r) = l ++ x :: f y :: r.
Proof.
  rewrite <- (Nat.add_1_r (length l)). now rewrite update_nth_app.
Qed.

Lemma nth_error_first_new {A} (l r : list A) (x : A) :
  nth_error (l ++ x :: r) (length l) = Some x.
Proof. induction l; cbn; auto. Qed.

Lemma nth_error_second_new {A} (l r : list A) (x y : A) :
  nth_error (l ++ x :: y :: r) (S (length l)) = Some y.
Proof. induction l; cbn; auto. Qed.

(** *** Visibility *)

Lemma visible_from_eq fuel ws i :
  visible_from fuel ws i =
  match nth_error ws i with
  | None => false
  | Some x =>
      shown x
      && match parent x with
         | None => true
         | Some p =>
             match fuel with
             | O => false
             | S fuel' => visible_from fuel' ws p
             end
         end
  end.
Proof. destruct fuel; reflexivity. Qed.

(** The visibility of a window is its own flag. *)
Lemma visible_window q l r x :
  parent x = None -> visible (length l) (mkWorld q (l ++ x :: r)) = shown x.
Proof.
  intros Hp. unfold visible. cbn [widgets].
  rewrite visible_from_eq, nth_error_first_new, Hp. apply andb_true_r.
Qed.

(** The visibility of a widget placed just after its window. *)
Lemma visible_child_of_window q l r x y :
  parent x = None -> parent y = Some (length l) ->
  visible (S (length l)) (mkWorld q (l ++ x :: y :: r)) = shown y && shown x.
Proof.
  intros Hx Hy. unfold visible. cbn [widgets].
  rewrite visible_from_eq, nth_error_second_new, Hy.
  rewrite length_app. cbn [length]. rewrite Nat.add_succ_r.
  rewrite visible_from_eq, nth_error_first_new, Hx. now rewrite andb_true_r.
Qed.

(** *** What the constructor builds *)

Lemma Dashboard_spec (w : World) :
  Dashboard w =
  if qapplication w
  then (Py.Return (length (widgets w)), built (widgets w) true)
  else (Py.Abort "QWidget: Must construct a QApplication before a QWidget", w).
Proof.
  unfold Dashboard, QMainWindow_new, QPushButton_new, new_widget, setWindowTitle,
    connect, setCentralWidget, show, update_widget.
  run_monad.
  destruct (qapplication w); [|reflexivity].
  cbn [qapplication widgets].
  rewrite update_nth_first_new. cbn -[Gi.update_nth visible].
  rewrite length_app, Nat.add_1_r, <- !app_assoc. cbn -[Gi.update_nth visible].
  rewrite update_nth_second_new, update_nth_first_new, update_nth_second_new,
    update_nth_first_new.
  rewrite visible_window by reflexivity.
  reflexivity.
Qed.

Lemma button_of_built l b : button_of (length l) (built l b) = Some (S (length l)).
Proof.
  unfold button_of, built. cbn [widgets]. now rewrite nth_error_first_new.
Qed.

(** A signal of the button in a world made by the constructor: [pressed]
    closes the window, the other signals change nothing. *)
Lemma emit_built l b sig :
  emit (S (length l)) sig (built l b) =
  (Py.Return tt, built l (if Signal_eqb pressed sig then false else b)).
Proof.
  unfold emit, built. run_monad. cbn [widgets].
  rewrite nth_error_second_new. cbn [dashboard_button connections call_slots].
  destruct (Signal_eqb pressed sig); run_monad; [|reflexivity].
  unfold call_slot, close, update_widget. run_monad. cbn [qapplication widgets].
  now rewrite update_nth_first_new.
Qed.

Lemma emit_all_built sigs : forall l b,
  exists b', emit_all (S (length l)) sigs (built l b) = (Py.Return tt, built l b').
Proof.
  induction sigs as [|s sigs IH]; intros l b; cbn [emit_all].
  - now exists b.
  - run_monad. rewrite emit_built. apply IH.
Qed.

Lemma click_built l b :
  click (S (length l)) (built l b) = (Py.Return tt, built l false).
Proof.
  unfold click. run_monad. now rewrite !emit_built.
Qed.

Lemma no_child_below (n : nat) (l : list Widget) :
  (forall x, In x l -> forall p, parent x = Some p -> p < n) ->
  filter (is_child_of n) l = [].
Proof.
  induction l as [|x l IH]; intros H; [reflexivity|]. cbn.
  assert (is_child_of n x = false) as ->.
  { unfold is_child_of. destruct (parent x) as [p|] eqn:Ep; [|reflexivity].
    apply Nat.eqb_neq. specialize (H x (or_introl eq_refl) p Ep). lia. }
  apply IH. intros y Hy. apply H. now right.
Qed.

(** Without a [QApplication] the constructor aborts the process and no
    window is made. *)
Lemma Dashboard_needs_QApplication (w : World) :
  qapplication w = false ->
  Dashboard w
  = (Py.Abort "QWidget: Must construct a QApplication before a QWidget", w).
Proof. intros H. now rewrite Dashboard_spec, H. Qed.

(** Well-formedness is an invariant of the constructor. *)
Lemma Dashboard_well_formed (w : World) :
  well_formed w -> well_formed (snd (Dashboard w)).
Proof.
  intros Hwf. rewrite Dashboard_spec.
  destruct (qapplication w); [|exact Hwf].
  unfold well_formed, built in *. cbn [snd widgets].
  intros x Hx p Hp. rewrite length_app. cbn [length].
  apply in_app_or in Hx as [Hx|[<-|[<-|[]]]].
  - specialize (Hwf x Hx p Hp). lia.
  - discriminate.
  - cbn in Hp. injection Hp as <-. lia.
Qed.

Lemma is_closed_built l : is_closed (length l) (built l false).
Proof.
  unfold is_closed, built. cbn [widgets]. rewrite nth_error_first_new.
  eexists. split; reflexivity.
Qed.

(** *** The statements about Shell B *)

(** C4.  Constructing a Dashboard, in a host that has created its
    QApplication, returns and adds exactly one window to the windows that
    exist; the window's title is the literal string "RestEasy", and it
    contains exactly one control, a push button whose label is the literal
    string "RestEasy (WIP)". *)
Theorem Dashboard_builds_window_and_button (w : World) :
  qapplication w = true ->
  well_formed w ->
  exists self w' win btn,
    Dashboard w = (Py.Return self, w')
    /\ nth_error (widgets w') self = Some win
    /\ windows w' = windows w ++ [win]
    /\ class win = QMainWindow
    /\ windowTitle win = "RestEasy"%string
    /\ children self w' = [btn]
    /\ class btn = QPushButton
    /\ text btn = "RestEasy (WIP)"%string.
Proof.
  intros Hq Hwf. rewrite Dashboard_spec, Hq.
  exists (length (widgets w)), (built (widgets w) true),
         (dashboard_window (length (widgets w)) true),
         (dashboard_button (length (widgets w))).
  split; [reflexivity|].
  unfold windows, children, built. cbn [widgets].
  rewrite nth_error_first_new, !filter_app, (no_child_below _ _ Hwf).
  cbn. rewrite Nat.eqb_refl. repeat split.
Qed.

Lemma Dashboard_builds_window_and_button_witness :
  qapplication host = true
  /\ well_formed host
  /\ exists self w' win btn,
       Dashboard host = (Py.Return self, w')
       /\ nth_error (widgets w') self = Some win
       /\ windows w' = windows host ++ [win]
       /\ class win = QMainWindow
       /\ windowTitle win = "RestEasy"%string
       /\ children self w' = [btn]
       /\ class btn = QPushButton
       /\ text btn = "RestEasy (WIP)"%string.
Proof.
  assert (well_formed host) as Hwf by (intros x []).
  split; [reflexivity|]. split; [exact Hwf|].
  apply (Dashboard_builds_window_and_button host eq_refl Hwf).
Defined.

(** C7.  When the construction of a Dashboard returns, its window is
    already on screen: it is among the shown windows, and a separate show
    step by the caller would change nothing. *)
Theorem Dashboard_is_shown_on_return (w : World) :
  qapplication w = true ->
  exists self w',
    Dashboard w = (Py.Return self, w')
    /\ is_shown self w'
    /\ (exists win, nth_error (widgets w') self = Some win
                    /\ In win (shown_windows w'))
    /\ show self w' = (Py.Return tt, w').
Proof.
  intros Hq. rewrite Dashboard_spec, Hq.
  exists (length (widgets w)), (built (widgets w) true).
  split; [reflexivity|].
  unfold is_shown, shown_windows, built, show, update_widget. cbn [widgets].
  rewrite nth_error_first_new. split; [|split].
  - eexists. split; reflexivity.
  - eexists. split; [reflexivity|].
    rewrite filter_app. apply in_or_app. right. cbn. now left.
  - run_monad. cbn [qapplication widgets]. now rewrite update_nth_first_new.
Qed.

Lemma Dashboard_is_shown_on_return_witness :
  qapplication host = true
  /\ exists self w',
       Dashboard host = (Py.Return self, w')
       /\ is_shown self w'
       /\ (exists win, nth_error (widgets w') self = Some win
                       /\ In win (shown_windows w'))
       /\ show self w' = (Py.Return tt, w').
Proof.
  split; [reflexivity|].
  apply (Dashboard_is_shown_on_return host eq_refl).
Defined.

(** C2.  For every constructed Dashboard, the signal wired during
    construction is the button's [pressed] signal, connected to the window's
    [close].  When the construction returns the window is shown and not
    closed; emitting the signal returns without an exception and takes the
    window from shown to closed, so that one window less is on screen.  The
    same holds for a full click of the button, and after any other signals
    of the button the signal leaves the window closed. *)
Theorem pressed_closes_the_window (w : World) :
  qapplication w = true ->
  exists self w' button btn,
    Dashboard w = (Py.Return self, w')
    /\ button_of self w' = Some button
    /\ nth_error (widgets w') button = Some btn
    /\ connections btn = [(pressed, close_of self)]
    /\ is_shown self w'
    /\ ~ is_closed self w'
    /\ (exists w2,
          emit button pressed w' = (Py.Return tt, w2)
          /\ is_closed self w2
          /\ ~ is_shown self w2
          /\ length (shown_windows w2) + 1 = length (shown_windows w'))
    /\ (forall sigs, exists w1 w2,
          emit_all button sigs w' = (Py.Return tt, w1)
          /\ emit button pressed w1 = (Py.Return tt, w2)
          /\ is_closed self w2)
    /\ (exists w2, click button w' = (Py.Return tt, w2)
                   /\ is_closed self w2
                   /\ ~ is_shown self w2).
Proof.
  intros Hq. rewrite Dashboard_spec, Hq.
  assert (forall l b x,
            nth_error (widgets (built l b)) (length l) = Some x -> shown x = b)
    as Hflag.
  { intros l b x. unfold built. cbn [widgets]. rewrite nth_error_first_new.
    intros H. now injection H as <-. }
  assert (forall l, ~ is_shown (length l) (built l false)) as Hnot.
  { intros l (x & Hx & Hs). apply Hflag in Hx. congruence. }
  exists (length (widgets w)), (built (widgets w) true),
         (S (length (widgets w))), (dashboard_button (length (widgets w))).
  split; [reflexivity|].
  split; [apply button_of_built|].
  split; [unfold built; cbn [widgets]; apply nth_error_second_new|].
  split; [reflexivity|].
  split.
  { unfold is_shown, built. cbn [widgets]. rewrite nth_error_first_new.
    eexists. split; reflexivity. }
  split.
  { intros (x & Hx & Hs). apply Hflag in Hx. congruence. }
  split.
  { exists (built (widgets w) false). split; [apply emit_built|].
    split; [apply is_closed_built|]. split; [apply Hnot|].
    unfold shown_windows, built. cbn [widgets]. rewrite !filter_app, !length_app.
    cbn. lia. }
  split.
  - intros sigs. destruct (emit_all_built sigs (widgets w) true) as [b' E].
    exists (built (widgets w) b'), (built (widgets w) false).
    split; [exact E|]. split; [apply emit_built | apply is_closed_built].
  - exists (built (widgets w) false).
    split; [apply click_built|]. split; [apply is_closed_built | apply Hnot].
Qed.

Lemma pressed_closes_the_window_witness :
  qapplication host = true
  /\ exists self w' button btn,
       Dashboard host = (Py.Return self, w')
       /\ button_of self w' = Some button
       /\ nth_error (widgets w') button = Some btn
       /\ connections btn = [(pressed, close_of self)]
       /\ is_shown self w'
       /\ ~ is_closed self w'
       /\ (exists w2,
             emit button pressed w' = (Py.Return tt, w2)
             /\ is_closed self w2
             /\ ~ is_shown self w2
             /\ length (shown_windows w2) + 1 = length (shown_windows w'))
       /\ (forall sigs, exists w1 w2,
             emit_all button sigs w' = (Py.Return tt, w1)
             /\ emit button pressed w1 = (Py.Return tt, w2)
             /\ is_closed self w2)
       /\ (exists w2, click button w' = (Py.Return tt, w2)
                      /\ is_closed self w2
                      /\ ~ is_shown self w2).
Proof.
  split; [reflexivity|].
  apply (pressed_closes_the_window host eq_refl).
Defined.

End ShellB_Properties.

(* ===================================================================== *)
(** ** The windows shown by each shell                                   *)
(* ===================================================================== *)

Module Shells_Properties.

Local Open Scope list_scope.

Lemma ShellA_session_spec (n : nat) (w : Gi.World) :
  exists self w',
    ShellA.session n w = (Py.Return self, w')
    /\ Gi.windows w' =
       Gi.windows w
       ++ repeat (Gi.mkWindow (Some (Gi.app_ref self)) "Hello, RestEasy!" true) n.
Proof.
  destruct (ShellA_Properties.MyApplication_returns w) as (self & w1 & E & _ & Hw).
  destruct (ShellA_Properties.activate_times_spec n self w1) as (w' & E' & Hw').
  exists self, w'. split; [|congruence].
  unfold ShellA.session, Py.bind, Py.ret. now rewrite E, E'.
Qed.

Lemma ShellB_session_spec (sigs : list Qt.Signal) :
  exists b,
    ShellB.session sigs ShellB.host = (Py.Return 0, ShellB.built [] b).
Proof.
  destruct (ShellB_Properties.emit_all_built sigs [] true) as [b E].
  exists b. unfold ShellB.session, Py.bind, Py.get, Py.ret.
  rewrite ShellB_Properties.Dashboard_spec. cbn [ShellB.host Qt.qapplication Qt.widgets].
  change (@length Qt.Widget []) with 0 in *.
  change (ShellB.button_of 0 (ShellB.built [] true)) with (Some 1).
  cbv beta iota. now rewrite E.
Qed.

(** C3 (amended).  In a session of Shell A that starts without a window,
    after [n] invocations of [activate()] exactly [n] windows are shown, so
    that at most one window is shown exactly when [activate()] was invoked
    at most once.  In a session of Shell B, after the single construction
    and any signals of the button, at most one window is shown. *)
Theorem windows_shown_per_shell
  (n : nat) (w : Gi.World) (sigs : list Qt.Signal) :
  Gi.windows w = [] ->
  (exists self w',
     ShellA.session n w = (Py.Return self, w')
     /\ length (Gi.shown_windows w') = n
     /\ (ShellA.at_most_one_shown w' <-> n <= 1))
  /\ (exists self w',
        ShellB.session sigs ShellB.host = (Py.Return self, w')
        /\ length (Qt.shown_windows w') <= 1).
Proof.
  intros Hw. split.
  - destruct (ShellA_session_spec n w) as (self & w' & E & Hw').
    exists self, w'. split; [exact E|].
    assert (length (Gi.shown_windows w') = n) as Hn.
    { unfold Gi.shown_windows. rewrite Hw', Hw. cbn [app].
      rewrite ShellA_Properties.shown_repeat by reflexivity.
      apply repeat_length. }
    split; [exact Hn|]. unfold ShellA.at_most_one_shown. now rewrite Hn.
  - destruct (ShellB_session_spec sigs) as [b E].
    exists 0, (ShellB.built [] b). split; [exact E|].
    destruct b; cbn; lia.
Qed.

Lemma windows_shown_per_shell_witness :
  Gi.windows Gi.fresh = []
  /\ (exists self w',
        ShellA.session 2 Gi.fresh = (Py.Return self, w')
        /\ length (Gi.shown_windows w') = 2
        /\ (ShellA.at_most_one_shown w' <-> 2 <= 1))
  /\ (exists self w',
        ShellB.session [Qt.pressed; Qt.clicked] ShellB.host = (Py.Return self, w')
        /\ length (Qt.shown_windows w') <= 1).
Proof.
  split; [reflexivity|].
  apply (windows_shown_per_shell 2 Gi.fresh [Qt.pressed; Qt.clicked]).
  reflexivity.
Defined.

(** C3, as the specification words it, fails: after two invocations of
    [activate()] on Shell A, two windows are shown. *)
Lemma two_activations_show_two_windows :
  exists self w,
    ShellA.session 2 Gi.fresh = (Py.Return self, w)
    /\ length (Gi.shown_windows w) = 2
    /\ ~ ShellA.at_most_one_shown w.
Proof.
  eexists. eexists. split; [reflexivity|]. split; [reflexivity|].
  unfold ShellA.at_most_one_shown. cbn. lia.
Qed.

End Shells_Properties.

(* ===================================================================== *)
(** ** Further properties of Application Shell A                         *)
(* ===================================================================== *)

Module ShellA_Further.

Import Gi ShellA.
Import ShellA_Properties.

Lemma repeat_snoc {A} (x : A) n : (repeat x n ++ [x])%list = repeat x (S n).
Proof. induction n; cbn; [reflexivity|]. now f_equal. Qed.

Lemma activate_times_state n self w :
  activate_times n self w =
  (Py.Return tt,
   set_windows (fun l =>
     l ++ repeat (mkWindow (Some (app_ref self)) "Hello, RestEasy!" true) n)%list w).
Proof.
  induction n as [|n IH]; cbn [activate_times].
  - unfold Py.ret, set_windows. cbn [repeat]. rewrite app_nil_r. now destruct w.
  - run_monad. rewrite IH, do_activate_spec. unfold set_windows. cbn.
    rewrite <- app_assoc. do 3 f_equal. apply repeat_snoc.
Qed.

(** *** The statements *)

(** X1.  [MyApplication()] always returns.  Where the references of the
    application objects are below their number, as in a fresh process, the
    new object has a reference that no earlier object has, and the same
    holds again afterwards.  The object is added and nothing else: no
    window is created and the repository is left alone.  The process-wide
    application name becomes "RestEasy" only when no name was set; a name
    set before is kept and GLib warns. *)
Theorem MyApplication_effects (w : World) :
  refs_in_range w ->
  exists self w',
    MyApplication w = (Py.Return self, w')
    /\ ~ In (app_ref self) (map app_ref (applications w))
    /\ refs_in_range w'
    /\ applications w' = (applications w ++ [self])%list
    /\ windows w' = windows w
    /\ loaded w' = loaded w
    /\ versions w' = versions w
    /\ application_name w'
       = Some (match application_name w with Some n => n | None => "RestEasy" end)
    /\ warnings w'
       = (warnings w
          ++ match application_name w with
             | Some _ => [GLibWarning "g_set_application_name() called multiple times"]
             | None => []
             end)%list.
Proof.
  intros Hrefs. unfold refs_in_range in Hrefs.
  assert (~ In (length (applications w)) (map app_ref (applications w))) as Hnew.
  { intros Hin. apply in_map_iff in Hin as (a & Ha & Hin).
    rewrite Forall_forall in Hrefs. specialize (Hrefs a Hin). lia. }
  assert (forall self, app_ref self = length (applications w) ->
            Forall (fun a => app_ref a < length (applications w ++ [self])%list)
                   (applications w ++ [self])%list) as Hkeep.
  { intros self Hself. rewrite length_app. cbn [length].
    apply Forall_app. split.
    - eapply Forall_impl; [|exact Hrefs]. cbn. intros a Ha. lia.
    - constructor; [lia|constructor]. }
  unfold MyApplication, Gtk_Application, GLib_set_application_name. run_monad.
  cbn. destruct (application_name w) eqn:En; eexists; eexists;
    (split; [reflexivity|]); unfold refs_in_range; cbn; rewrite ?app_nil_r;
    (split; [exact Hnew|]); (split; [now apply Hkeep|]);
    repeat split; assumption.
Qed.

Lemma MyApplication_effects_witness :
  refs_in_range fresh
  /\ exists self w',
       MyApplication fresh = (Py.Return self, w')
       /\ ~ In (app_ref self) (map app_ref (applications fresh))
       /\ refs_in_range w'
       /\ applications w' = (applications fresh ++ [self])%list
       /\ windows w' = windows fresh
       /\ loaded w' = loaded fresh
       /\ versions w' = versions fresh
       /\ application_name w'
          = Some (match application_name fresh with
                  | Some n => n
                  | None => "RestEasy"
                  end)
       /\ warnings w'
          = (warnings fresh
             ++ match application_name fresh with
                | Some _ =>
                    [GLibWarning "g_set_application_name() called multiple times"]
                | None => []
                end)%list.
Proof.
  assert (refs_in_range fresh) as Hrefs by constructor.
  split; [exact Hrefs|]. apply (MyApplication_effects fresh Hrefs).
Defined.

(** X2.  Two instantiations in a row, in a process whose application name is
    not set, give two distinct application objects with the same identifier;
    the name is "RestEasy", the second instantiation adds exactly one GLib
    warning, and no window exists that did not exist before. *)
Theorem MyApplication_twice (w : World) :
  application_name w = None ->
  exists a1 a2 w',
    (a1 <- MyApplication ;; a2 <- MyApplication ;; Py.ret (a1, a2)) w
    = (Py.Return (a1, a2), w')
    /\ app_ref a1 <> app_ref a2
    /\ application_id a1 = Some "com.resteasy.RestEasy"
    /\ application_id a2 = Some "com.resteasy.RestEasy"
    /\ applications w' = (applications w ++ [a1; a2])%list
    /\ application_name w' = Some "RestEasy"
    /\ warnings w'
       = (warnings w
          ++ [GLibWarning "g_set_application_name() called multiple times"])%list
    /\ windows w' = windows w.
Proof.
  intros Hn.
  unfold MyApplication, Gtk_Application, GLib_set_application_name. run_monad.
  cbn. rewrite Hn. cbn. eexists. eexists. eexists.
  split; [reflexivity|]. cbn. rewrite length_app, <- app_assoc. cbn.
  repeat split. lia.
Qed.

Lemma MyApplication_twice_witness :
  application_name fresh = None
  /\ exists a1 a2 w',
       (a1 <- MyApplication ;; a2 <- MyApplication ;; Py.ret (a1, a2)) fresh
       = (Py.Return (a1, a2), w')
       /\ app_ref a1 <> app_ref a2
       /\ application_id a1 = Some "com.resteasy.RestEasy"
       /\ application_id a2 = Some "com.resteasy.RestEasy"
       /\ applications w' = (applications fresh ++ [a1; a2])%list
       /\ application_name w' = Some "RestEasy"
       /\ warnings w'
          = (warnings fresh
             ++ [GLibWarning "g_set_application_name() called multiple times"])%list
       /\ windows w' = windows fresh.
Proof.
  split; [reflexivity|]. apply (MyApplication_twice fresh eq_refl).
Defined.

(** X3.  [n] invocations of [activate()], in any state, return and append
    [n] windows to the windows that exist: the earlier windows are kept as
    they were, every new window is owned by the application, titled
    "Hello, RestEasy!" and shown, and the application objects and the
    application name are untouched. *)
Theorem activations_append_owned_windows
  (n : nat) (self : Application) (w : World) :
  exists w',
    activate_times n self w = (Py.Return tt, w')
    /\ length (windows w') = length (windows w) + n
    /\ firstn (length (windows w)) (windows w') = windows w
    /\ Forall (fun x => win_application x = Some (app_ref self)
                        /\ win_title x = "Hello, RestEasy!"
                        /\ win_visible x = true)
              (skipn (length (windows w)) (windows w'))
    /\ applications w' = applications w
    /\ application_name w' = application_name w.
Proof.
  rewrite activate_times_state. eexists. split; [reflexivity|].
  unfold set_windows. cbn [windows applications application_name].
  rewrite length_app, repeat_length.
  split; [reflexivity|].
  rewrite firstn_app, Nat.sub_diag, firstn_all, firstn_O, app_nil_r.
  split; [reflexivity|].
  rewrite skipn_app, Nat.sub_diag, skipn_all, skipn_O. cbn [app].
  split; [|split; reflexivity].
  apply Forall_forall. intros x Hx. apply repeat_spec in Hx. subst x.
  repeat split.
Qed.

(** X4.  In an interpreter in which [gi.require_version] has not been
    called for any namespace and no namespace is loaded but GLib's own, on a
    machine where GLib can be imported, importing the module and instantiating the application
    returns exactly when the newest Gtk installed is 4.0; Gtk 4.0 being
    installed beside a newer version is not enough. *)
Theorem instantiate_returns_iff_newest_is_4_0 (env : Env) (w : World) :
  versions w = [] ->
  only_glib_loaded w ->
  is_registered "GLib" w = true \/ enumerate_versions env "GLib" <> [] ->
  Py.returns (fst (instantiate env w)) = true
  <-> hd_error (enumerate_versions env "Gtk") = Some "4.0".
Proof.
  intros Hv Hglibonly Hglib.
  pose proof (only_glib_loaded_no_Gtk w Hglibonly) as Hg.
  destruct (module_toplevel_outcome env w Hv Hg Hglib) as (w' & _ & _ & _ & E).
  unfold instantiate. run_monad. rewrite E.
  destruct (enumerate_versions env "Gtk") as [|newest rest];
    cbn -[MyApplication].
  - split; discriminate.
  - destruct (String.eqb_spec newest "4.0") as [->|Hne]; cbn -[MyApplication].
    + destruct (MyApplication_returns w') as (self & w2 & Em & _).
      rewrite Em. cbn. split; reflexivity.
    + split; [discriminate|]. intros H. congruence.
Qed.

Lemma instantiate_returns_iff_newest_is_4_0_witness :
  versions fresh = []
  /\ only_glib_loaded fresh
  /\ (is_registered "GLib" fresh = true
      \/ enumerate_versions (machine ["5.0"; "4.0"]) "GLib" <> [])
  /\ (Py.returns (fst (instantiate (machine ["5.0"; "4.0"]) fresh)) = true
      <-> hd_error (enumerate_versions (machine ["5.0"; "4.0"]) "Gtk")
          = Some "4.0").
Proof.
  assert (is_registered "GLib" fresh = true
          \/ enumerate_versions (machine ["5.0"; "4.0"]) "GLib" <> []) as Hglib
    by (right; discriminate).
  split; [reflexivity|]. split; [exact only_glib_loaded_fresh|].
  split; [exact Hglib|].
  apply (instantiate_returns_iff_newest_is_4_0 (machine ["5.0"; "4.0"]) fresh
           eq_refl only_glib_loaded_fresh Hglib).
Defined.

(** X5.  When the newest Gtk installed is not 4.0, or no Gtk is installed,
    the script ends with [ImportError] or [ValueError] and exit code 1
    before the application object is created: no application object and no
    window exist that did not exist before, and [run] is never reached, so
    the outcome is the same for every [run] and every argument list. *)
Theorem script_fails_before_run
  (env : Env) (run : Application -> list string -> M Z) (argv : list string)
  (w : World) :
  versions w = [] ->
  Py.dict_get "Gtk" (loaded w) = None ->
  is_registered "GLib" w = true \/ enumerate_versions env "GLib" <> [] ->
  hd_error (enumerate_versions env "Gtk") <> Some "4.0" ->
  Py.process_exit_code (fst (script env run argv w)) = 1%Z
  /\ (exists msg,
        fst (script env run argv w) = Py.Raise (Py.ImportError msg)
        \/ fst (script env run argv w) = Py.Raise (Py.ValueError msg))
  /\ applications (snd (script env run argv w)) = applications w
  /\ windows (snd (script env run argv w)) = windows w
  /\ application_name (snd (script env run argv w)) = application_name w
  /\ forall run' argv', script env run' argv' w = script env run argv w.
Proof.
  intros Hv Hg Hglib Hbad.
  destruct (module_toplevel_outcome env w Hv Hg Hglib) as (w' & Fa & Fw & Fn & E).
  unfold script. run_monad. rewrite E.
  destruct (enumerate_versions env "Gtk") as [|newest rest]; cbn.
  - repeat split; try assumption. eexists. left. reflexivity.
  - destruct (String.eqb_spec newest "4.0") as [->|Hne]; [now elim Hbad|].
    cbn. repeat split; try assumption. eexists. right. reflexivity.
Qed.

Lemma script_fails_before_run_witness :
  versions fresh = []
  /\ Py.dict_get "Gtk" (loaded fresh) = None
  /\ (is_registered "GLib" fresh = true
      \/ enumerate_versions (machine ["3.0"]) "GLib" <> [])
  /\ hd_error (enumerate_versions (machine ["3.0"]) "Gtk") <> Some "4.0"
  /\ Py.process_exit_code
       (fst (script (machine ["3.0"]) (fun _ _ w => (Py.Return 0%Z, w))
               ["resteasy"] fresh)) = 1%Z.
Proof.
  assert (is_registered "GLib" fresh = true
          \/ enumerate_versions (machine ["3.0"]) "GLib" <> []) as Hglib
    by (right; discriminate).
  assert (hd_error (enumerate_versions (machine ["3.0"]) "Gtk") <> Some "4.0")
    as Hbad by discriminate.
  split; [reflexivity|]. split; [reflexivity|]. split; [exact Hglib|].
  split; [exact Hbad|].
  exact (proj1 (script_fails_before_run (machine ["3.0"])
                  (fun _ _ w => (Py.Return 0%Z, w)) ["resteasy"] fresh
                  eq_refl eq_refl Hglib Hbad)).
Defined.

(** X6.  The main block never runs to its end: when [run] returns a status
    the block raises [SystemExit] with it, and when [run] raises or aborts,
    that outcome is the block's, [sys.exit] not being reached.  In every
    case the state is the one [run] left. *)
Theorem main_never_returns
  (run : Application -> list string -> M Z) (argv : list string) (w : World) :
  exists app w1,
    MyApplication w = (Py.Return app, w1)
    /\ fst (main run argv w)
       = match fst (run app argv w1) with
         | Py.Return status => Py.Raise (Py.SystemExit status)
         | Py.Raise e => Py.Raise e
         | Py.Abort msg => Py.Abort msg
         end
    /\ snd (main run argv w) = snd (run app argv w1)
    /\ Py.returns (fst (main run argv w)) = false.
Proof.
  destruct (MyApplication_returns w) as (app & w1 & E & _).
  exists app, w1. split; [exact E|].
  unfold main. run_monad. rewrite E.
  destruct (run app argv w1) as [[status|e|msg] w2]; cbn; repeat split.
Qed.

End ShellA_Further.

(* ===================================================================== *)
(** ** Further properties of Window Shell B                              *)
(* ===================================================================== *)

Module ShellB_Further.

Import Qt ShellB.
Import ShellB_Properties.
Local Open Scope list_scope.

Lemma nth_error_app_plus {A} (l r : list A) (k : nat) :
  nth_error (l ++ r) (length l + k) = nth_error r k.
Proof. induction l; cbn; auto. Qed.

Lemma nth_error_app_below {A} (l r : list A) (i : nat) :
  i < length l -> nth_error (l ++ r) i = nth_error l i.
Proof.
  revert i. induction l as [|x l IH]; intros i Hi; cbn in Hi; [lia|].
  destruct i; cbn; [reflexivity|]. apply IH. lia.
Qed.

(** A signal of a dashboard's button, whatever widgets were made before and
    after the dashboard. *)
Lemma emit_own_button q l r b sig :
  emit (S (length l)) sig
    (mkWorld q (l ++ dashboard_window (length l) b
                  :: dashboard_button (length l) :: r))
  = (Py.Return tt,
     mkWorld q (l ++ dashboard_window (length l)
                       (if Signal_eqb pressed sig then false else b)
                  :: dashboard_button (length l) :: r)).
Proof.
  unfold emit. run_monad. cbn [widgets].
  rewrite nth_error_second_new. cbn [dashboard_button connections call_slots].
  destruct (Signal_eqb pressed sig); run_monad; [|reflexivity].
  unfold call_slot, close, update_widget. run_monad. cbn [qapplication widgets].
  now rewrite update_nth_first_new.
Qed.

Lemma emit_all_built_exact sigs : forall l b,
  emit_all (S (length l)) sigs (built l b)
  = (Py.Return tt, built l (b && negb (existsb (Signal_eqb pressed) sigs))).
Proof.
  induction sigs as [|s sigs IH]; intros l b; cbn [emit_all existsb].
  - unfold Py.ret. now rewrite andb_true_r.
  - run_monad. rewrite emit_built, IH. do 2 f_equal.
    destruct (Signal_eqb pressed s), b; reflexivity.
Qed.

Lemma pressed_among sigs :
  existsb (Signal_eqb pressed) sigs = true <-> In pressed sigs.
Proof.
  rewrite existsb_exists. split.
  - intros (x & Hx & E). now destruct x.
  - intros H. now exists pressed.
Qed.

Lemma shown_flag_built l b x :
  nth_error (widgets (built l b)) (length l) = Some x -> shown x = b.
Proof.
  unfold built. cbn [widgets]. rewrite nth_error_first_new.
  intros H. now injection H as <-.
Qed.

(** *** The statements *)

(** X7.  After the construction and any signals of the button, the window
    is closed exactly when [pressed] was among the signals: [released] and
    [clicked] alone never close it, and once closed it is not shown again. *)
Theorem closed_iff_pressed_was_emitted (w : World) :
  qapplication w = true ->
  exists self w' button,
    Dashboard w = (Py.Return self, w')
    /\ button_of self w' = Some button
    /\ forall sigs, exists w2,
         emit_all button sigs w' = (Py.Return tt, w2)
         /\ (is_closed self w2 <-> In pressed sigs)
         /\ (is_shown self w2 <-> ~ In pressed sigs).
Proof.
  intros Hq. rewrite Dashboard_spec, Hq.
  exists (length (widgets w)), (built (widgets w) true), (S (length (widgets w))).
  split; [reflexivity|]. split; [apply button_of_built|].
  intros sigs. rewrite emit_all_built_exact. cbn [andb].
  eexists. split; [reflexivity|].
  rewrite <- pressed_among. unfold is_closed, is_shown.
  destruct (existsb (Signal_eqb pressed) sigs); cbn [negb]; split; split.
  - reflexivity.
  - intros _. unfold built. cbn [widgets]. rewrite nth_error_first_new.
    eexists. split; reflexivity.
  - intros (x & Hx & Hs). apply shown_flag_built in Hx. congruence.
  - intros H. now elim H.
  - intros (x & Hx & Hs). apply shown_flag_built in Hx. congruence.
  - discriminate.
  - intros _. discriminate.
  - intros _. unfold built. cbn [widgets]. rewrite nth_error_first_new.
    eexists. split; reflexivity.
Qed.

Lemma closed_iff_pressed_was_emitted_witness :
  qapplication host = true
  /\ exists self w' button,
       Dashboard host = (Py.Return self, w')
       /\ button_of self w' = Some button
       /\ forall sigs, exists w2,
            emit_all button sigs w' = (Py.Return tt, w2)
            /\ (is_closed self w2 <-> In pressed sigs)
            /\ (is_shown self w2 <-> ~ In pressed sigs).
Proof.
  split; [reflexivity|]. apply (closed_iff_pressed_was_emitted host eq_refl).
Defined.

(** X8.  Two dashboards constructed one after the other are two different
    windows, each with its own button: pressing the button of one closes
    that window and leaves the other one shown. *)
Theorem each_button_closes_its_own_window (w : World) :
  qapplication w = true ->
  exists d1 d2 b1 b2 w2,
    (d1 <- Dashboard ;; d2 <- Dashboard ;; Py.ret (d1, d2)) w
    = (Py.Return (d1, d2), w2)
    /\ d1 <> d2
    /\ button_of d1 w2 = Some b1
    /\ button_of d2 w2 = Some b2
    /\ b1 <> b2
    /\ (exists w3, emit b1 pressed w2 = (Py.Return tt, w3)
                   /\ is_closed d1 w3 /\ is_shown d2 w3)
    /\ (exists w3, emit b2 pressed w2 = (Py.Return tt, w3)
                   /\ is_shown d1 w3 /\ is_closed d2 w3).
Proof.
  intros Hq. run_monad. rewrite Dashboard_spec, Hq, Dashboard_spec.
  cbn [built qapplication widgets].
  set (l := widgets w). set (n := length l).
  assert (length (l ++ [dashboard_window n true; dashboard_button n]) = n + 2)
    as Hlen by (rewrite length_app; reflexivity).
  exists n, (n + 2), (S n), (S (n + 2)).
  rewrite !Hlen. eexists. split; [reflexivity|].
  split; [lia|].
  unfold button_of, built. cbn [widgets]. rewrite Hlen, <- !app_assoc.
  cbn [app].
  split; [subst n; now rewrite nth_error_first_new|].
  split.
  { subst n. rewrite nth_error_app_plus. reflexivity. }
  split; [lia|].
  split.
  - subst n. rewrite emit_own_button. cbn [Signal_eqb].
    eexists. split; [reflexivity|]. unfold is_closed, is_shown. cbn [widgets].
    split.
    + rewrite nth_error_first_new. eexists. split; reflexivity.
    + rewrite nth_error_app_plus. eexists. split; reflexivity.
  - pose proof (emit_own_button true
      (l ++ [dashboard_window n true; dashboard_button n]) [] true pressed) as E.
    rewrite Hlen, <- !app_assoc in E. cbn [app Signal_eqb] in E. rewrite E.
    eexists. split; [reflexivity|]. unfold is_closed, is_shown. cbn [widgets].
    split.
    + subst n. rewrite nth_error_first_new. eexists. split; reflexivity.
    + subst n. rewrite nth_error_app_plus. eexists. split; reflexivity.
Qed.

Lemma each_button_closes_its_own_window_witness :
  qapplication host = true
  /\ exists d1 d2 b1 b2 w2,
       (d1 <- Dashboard ;; d2 <- Dashboard ;; Py.ret (d1, d2)) host
       = (Py.Return (d1, d2), w2)
       /\ d1 <> d2
       /\ button_of d1 w2 = Some b1
       /\ button_of d2 w2 = Some b2
       /\ b1 <> b2
       /\ (exists w3, emit b1 pressed w2 = (Py.Return tt, w3)
                      /\ is_closed d1 w3 /\ is_shown d2 w3)
       /\ (exists w3, emit b2 pressed w2 = (Py.Return tt, w3)
                      /\ is_shown d1 w3 /\ is_closed d2 w3).
Proof.
  split; [reflexivity|]. apply (each_button_closes_its_own_window host eq_refl).
Defined.

(** X9.  When the construction returns, the window and its button are
    both visible.  Pressing the button changes one widget only, the window,
    which is hidden by the call of [close]: every other widget, the button
    included, keeps its title, label, parent, connections and flags.  The
    button is no longer visible all the same, because its window is not.
    The construction itself keeps every widget that existed and adds two. *)
Theorem construction_and_press_frame (w : World) :
  qapplication w = true ->
  exists self w' button w2,
    Dashboard w = (Py.Return self, w')
    /\ button_of self w' = Some button
    /\ visible self w' = true
    /\ visible button w' = true
    /\ emit button pressed w' = (Py.Return tt, w2)
    /\ visible self w2 = false
    /\ visible button w2 = false
    /\ length (widgets w') = length (widgets w) + 2
    /\ (forall i, i < length (widgets w) ->
                  nth_error (widgets w') i = nth_error (widgets w) i)
    /\ length (widgets w2) = length (widgets w')
    /\ (forall i, i <> self ->
                  nth_error (widgets w2) i = nth_error (widgets w') i)
    /\ (exists x, nth_error (widgets w') self = Some x
                  /\ nth_error (widgets w2) self = Some (set_shown false x))
    /\ qapplication w2 = true.
Proof.
  intros Hq. rewrite Dashboard_spec, Hq.
  exists (length (widgets w)), (built (widgets w) true),
         (S (length (widgets w))), (built (widgets w) false).
  assert (forall l b, visible (length l) (built l b) = b
                      /\ visible (S (length l)) (built l b) = b) as Hvis.
  { intros l b. unfold built.
    rewrite visible_window, visible_child_of_window by reflexivity.
    split; reflexivity. }
  split; [reflexivity|]. split; [apply button_of_built|].
  split; [apply Hvis|]. split; [apply Hvis|].
  split; [apply emit_built|].
  split; [apply Hvis|]. split; [apply Hvis|].
  unfold built. cbn [widgets qapplication]. rewrite !length_app. cbn [length].
  split; [reflexivity|].
  split; [intros i Hi; now apply nth_error_app_below|].
  split; [reflexivity|].
  split.
  - intros i Hi.
    destruct (Nat.lt_ge_cases i (length (widgets w))) as [Hlt|Hge].
    + now rewrite !nth_error_app_below.
    + replace i with (length (widgets w) + (i - length (widgets w))) by lia.
      rewrite !nth_error_app_plus.
      destruct (i - length (widgets w)) as [|k] eqn:Ek; [lia|]. reflexivity.
  - split; [|reflexivity].
    rewrite !nth_error_first_new. eexists. split; reflexivity.
Qed.

Lemma construction_and_press_frame_witness :
  qapplication host = true
  /\ exists self w' button w2,
       Dashboard host = (Py.Return self, w')
       /\ button_of self w' = Some button
       /\ visible self w' = true
       /\ visible button w' = true
       /\ emit button pressed w' = (Py.Return tt, w2)
       /\ visible self w2 = false
       /\ visible button w2 = false
       /\ length (widgets w') = length (widgets host) + 2
       /\ (forall i, i < length (widgets host) ->
                     nth_error (widgets w') i = nth_error (widgets host) i)
       /\ length (widgets w2) = length (widgets w')
       /\ (forall i, i <> self ->
                     nth_error (widgets w2) i = nth_error (widgets w') i)
       /\ (exists x, nth_error (widgets w') self = Some x
                     /\ nth_error (widgets w2) self = Some (set_shown false x))
       /\ qapplication w2 = true.
Proof.
  split; [reflexivity|]. apply (construction_and_press_frame host eq_refl).
Defined.

(** X10.  In a host that has not created its QApplication the constructor
    does not return: the process is aborted at the first statement, before
    any widget is made, so that no window, no button and no connection
    exist afterwards that did not exist before. *)
Theorem Dashboard_aborts_without_QApplication (w : World) :
  qapplication w = false ->
  (exists msg, fst (Dashboard w) = Py.Abort msg)
  /\ Py.returns (fst (Dashboard w)) = false
  /\ snd (Dashboard w) = w.
Proof.
  intros Hq. rewrite Dashboard_spec, Hq. cbn.
  split; [eexists; reflexivity|]. split; reflexivity.
Qed.

Lemma Dashboard_aborts_without_QApplication_witness :
  qapplication (mkWorld false []) = false
  /\ (exists msg, fst (Dashboard (mkWorld false [])) = Py.Abort msg)
  /\ Py.returns (fst (Dashboard (mkWorld false []))) = false
  /\ snd (Dashboard (mkWorld false [])) = mkWorld false [].
Proof.
  split; [reflexivity|].
  apply (Dashboard_aborts_without_QApplication (mkWorld false []) eq_refl).
Defined.

(** X11.  Every construction opens a window of its own: [k] constructions
    by a caller that keeps the instances return [k] different instances,
    every one of them a shown window at the end; the widgets that existed
    are kept, and [k] windows, all shown, and [2 * k] widgets are added. *)
Theorem constructions_open_windows (k : nat) (w : World) :
  qapplication w = true ->
  exists selves w',
    construct_times k w = (Py.Return selves, w')
    /\ length selves = k
    /\ NoDup selves
    /\ Forall (fun self => is_shown self w' /\ visible self w' = true) selves
    /\ qapplication w' = true
    /\ length (widgets w') = length (widgets w) + 2 * k
    /\ length (windows w') = length (windows w) + k
    /\ length (shown_windows w') = length (shown_windows w) + k
    /\ firstn (length (widgets w)) (widgets w') = widgets w.
Proof.
  intros Hq.
  assert (forall q ws i x, nth_error ws i = Some x -> parent x = None ->
            visible i (mkWorld q ws) = shown x) as Hvis.
  { intros q ws i x Hx Hp. unfold visible. cbn [widgets].
    rewrite visible_from_eq, Hx, Hp. apply andb_true_r. }
  enough (exists selves w',
    construct_times k w = (Py.Return selves, w')
    /\ length selves = k
    /\ NoDup selves
    /\ Forall (fun self => exists x, nth_error (widgets w') self = Some x
                                     /\ shown x = true /\ parent x = None) selves
    /\ qapplication w' = true
    /\ length (widgets w') = length (widgets w) + 2 * k
    /\ length (windows w') = length (windows w) + k
    /\ length (shown_windows w') = length (shown_windows w) + k
    /\ firstn (length (widgets w)) (widgets w') = widgets w) as
    (selves & w' & E & H1 & H2 & H3 & H4 & H5).
  { exists selves, w'. repeat split; try tauto.
    eapply Forall_impl; [|exact H3]. cbn. intros d (x & Hx & Hs & Hp). split.
    - exists x. now split.
    - destruct w' as [q ws]. cbn in Hx. now rewrite (Hvis q ws d x Hx Hp). }
  clear Hvis.
  induction k as [|k (selves & w1 & E & Hlen & Hnd & Hall & Hq1 & Hn & Hwin
                      & Hshown & Hpre)]; cbn [construct_times].
  - exists [], w. unfold Py.ret. repeat split; try lia; try assumption.
    + constructor.
    + constructor.
    + apply firstn_all.
  - run_monad. rewrite E, Dashboard_spec, Hq1.
    eexists. eexists. split; [reflexivity|].
    split; [rewrite length_app; cbn; lia|].
    assert (forall d, In d selves -> d < length (widgets w1)) as Hlt.
    { intros d Hd. rewrite Forall_forall in Hall.
      destruct (Hall d Hd) as (x & Hx & _).
      apply nth_error_Some. congruence. }
    split.
    { apply NoDup_app; [exact Hnd | repeat constructor; intros [] |].
      intros d Hd [<-|[]]. specialize (Hlt _ Hd). lia. }
    split.
    { apply Forall_app. split.
      - rewrite Forall_forall in *. intros d Hd.
        destruct (Hall d Hd) as (x & Hx & Hs & Hp). exists x.
        split; [|now split]. unfold built. cbn [widgets].
        rewrite nth_error_app_below; [exact Hx|]. now apply Hlt.
      - constructor; [|constructor]. unfold built. cbn [widgets].
        rewrite nth_error_first_new. eexists. repeat split. }
    unfold windows, shown_windows, built in *. cbn [qapplication widgets].
    rewrite !filter_app, !length_app. cbn [filter length dashboard_window
      dashboard_button is_window parent shown andb].
    split; [reflexivity|].
    split; [lia|]. split; [lia|]. split; [lia|].
    rewrite firstn_app, Hpre.
    replace (length (widgets w) - length (widgets w1)) with 0 by lia.
    cbn. apply app_nil_r.
Qed.

Lemma constructions_open_windows_witness :
  qapplication host = true
  /\ exists selves w',
       construct_times 3 host = (Py.Return selves, w')
       /\ length selves = 3
       /\ NoDup selves
       /\ Forall (fun self => is_shown self w' /\ visible self w' = true) selves
       /\ qapplication w' = true
       /\ length (widgets w') = length (widgets host) + 2 * 3
       /\ length (windows w') = length (windows host) + 3
       /\ length (shown_windows w') = length (shown_windows host) + 3
       /\ firstn (length (widgets host)) (widgets w') = widgets host.
Proof.
  split; [reflexivity|]. apply (constructions_open_windows 3 host eq_refl).
Defined.

End ShellB_Further.

(* ===================================================================== *)
(** ** What the operations of the shells change                          *)
(* ===================================================================== *)

Module Frame_Properties.

Local Open Scope list_scope.








End Frame_Properties.
